(** * Form_Summary: the ADT-1 extraction pipeline and its summary formatter

    A shallow embedding of [extractor.py] (class [Extractor]) and
    [summary.py] (class [Summary]) together with the properties the
    specification states about them.

    Modelling conventions.
    - A Python [str] is a Rocq [string]; each [ascii] stands for the code
      point of the same number, so the texts covered are those over the
      code points 0..255.  On that range [str.lower], [str.isspace], the
      regex class [\d] and [re.IGNORECASE] are the functions [lower_char],
      [isspace], [isdigit] and the comparison of lowered characters below.
    - A Python [dict] with string keys is a [gmap string _]; [d.get(k, v)]
      is [default v (d !! k)], [d[k] = v] is [<[k:=v]> d] and a loop over
      [d.items()] is [map_fold].  The raw form fields, whose iteration
      order decides which of two colliding entries is kept, are the list
      of their items in iteration order.
    - The functions of [Extractor] raise no exception on string-valued
      input and are total functions here; [Summary.generate_summary], which
      can raise, returns a [result]. *)

From Stdlib Require Import Strings.String Strings.Ascii NArith ZArith Lia.
From Stdlib Require Import Numbers.DecimalString.
From stdpp Require Import gmap strings list fin_maps.

Local Open Scope string_scope.
Local Open Scope list_scope.

(** ** Python strings *)

Module PyStr.

Definition code (c : ascii) : N := N_of_ascii c.

(** [str.isspace] on one character: TAB..CR, FS..US, SPACE, NEL, NBSP. *)
Definition isspace (c : ascii) : bool :=
  let n := code c in
  ((9 <=? n) && (n <=? 13) || (28 <=? n) && (n <=? 32)
   || (n =? 133) || (n =? 160))%N.

(** The regex class [\d]: the decimal digits. *)
Definition isdigit (c : ascii) : bool :=
  let n := code c in ((48 <=? n) && (n <=? 57))%N.

(** [str.lower] on one character: A..Z and the upper-case letters of the
    range 192..222 (all but the multiplication sign 215) move up by 32. *)
Definition lower_char (c : ascii) : ascii :=
  let n := code c in
  if ((65 <=? n) && (n <=? 90)
      || (192 <=? n) && (n <=? 222) && negb (n =? 215))%N
  then ascii_of_N (n + 32) else c.

Fixpoint lower (s : string) : string :=
  match s with
  | EmptyString => EmptyString
  | String c r => String (lower_char c) (lower r)
  end.

(** [s.startswith(p)], returning what follows the prefix. *)
Fixpoint strip_prefix (p s : string) : option string :=
  match p, s with
  | EmptyString, _ => Some s
  | String a p', String c s' =>
      if Ascii.eqb a c then strip_prefix p' s' else None
  | String _ _, EmptyString => None
  end.

Definition startswith (p s : string) : bool :=
  match strip_prefix p s with Some _ => true | None => false end.

(** [p in s]. *)
Fixpoint contains (p s : string) : bool :=
  startswith p s ||
  match s with
  | EmptyString => false
  | String _ r => contains p r
  end.

(** [s[:-n]] for a positive [n]: all but the last [n] characters. *)
Definition drop_last (n : nat) (s : string) : string :=
  String.substring 0 (String.length s - n) s.

(** [s.endswith(suf)]: some tail of [s] is [suf]. *)
Fixpoint endswith (suf s : string) : bool :=
  String.eqb s suf ||
  match s with
  | EmptyString => false
  | String _ r => endswith suf r
  end.

Fixpoint lstrip (s : string) : string :=
  match s with
  | EmptyString => EmptyString
  | String c r => if isspace c then lstrip r else s
  end.

Fixpoint rstrip (s : string) : string :=
  match s with
  | EmptyString => EmptyString
  | String c r =>
      match rstrip r with
      | EmptyString => if isspace c then EmptyString else String c EmptyString
      | r' => String c r'
      end
  end.

(** [s.strip()]. *)
Definition strip (s : string) : string := rstrip (lstrip s).

(** Truth value of a string: non-empty. *)
Definition truthy (s : string) : bool :=
  match s with EmptyString => false | String _ _ => true end.

(** [sep.join(l)]. *)
Fixpoint join (sep : string) (l : list string) : string :=
  match l with
  | [] => EmptyString
  | [x] => x
  | x :: r => x +:+ sep +:+ join sep r
  end.

(** [s.split(c)] for a one-character separator: the pieces between the
    occurrences of [c], empty ones included; never the empty list. *)
Fixpoint split_char (c : ascii) (s : string) : list string :=
  match s with
  | EmptyString => [EmptyString]
  | String a r =>
      if Ascii.eqb a c then EmptyString :: split_char c r
      else match split_char c r with
           | [] => [String a EmptyString]
           | w :: ws => String a w :: ws
           end
  end.

(** [s.split()]: the maximal runs of non-whitespace characters. *)
Fixpoint split_ws_aux (cur : option string) (s : string) : list string :=
  match s with
  | EmptyString => match cur with Some w => [w] | None => [] end
  | String a r =>
      if isspace a
      then match cur with
           | Some w => w :: split_ws_aux None r
           | None => split_ws_aux None r
           end
      else split_ws_aux
             (Some (match cur with
                    | Some w => w +:+ String a EmptyString
                    | None => String a EmptyString
                    end)) r
  end.

Definition split_ws (s : string) : list string := split_ws_aux None s.

End PyStr.

(** ** The regular expressions of the extractor *)

Module Re.
Import PyStr.

Definition LF : ascii := ascii_of_N 10.

(** A literal pattern under [re.IGNORECASE], matched at the start of [s]:
    characters are compared after lowering; the result is what follows
    the match. *)
Fixpoint match_literal_i (p s : string) : option string :=
  match p, s with
  | EmptyString, _ => Some s
  | String a p', String c s' =>
      if Ascii.eqb (lower_char c) (lower_char a)
      then match_literal_i p' s' else None
  | String _ _, EmptyString => None
  end.

(** [re.search(p, s, re.IGNORECASE)] for a literal [p], as a truth value:
    the start positions are tried from left to right. *)
Fixpoint search_literal_i (p s : string) : bool :=
  match match_literal_i p s with
  | Some _ => true
  | None =>
      match s with
      | EmptyString => false
      | String _ r => search_literal_i p r
      end
  end.

(** [\d+], greedy: all the leading digits are taken.  Giving one back
    never helps the patterns below, where a non-digit has to follow. *)
Fixpoint skip_digits (s : string) : string :=
  match s with
  | EmptyString => EmptyString
  | String c r => if isdigit c then skip_digits r else s
  end.

(** [$] without [re.MULTILINE]: at the end of the string, or just before
    a newline that ends it. *)
Definition at_dollar (s : string) : bool :=
  match s with
  | EmptyString => true
  | String c EmptyString => Ascii.eqb c LF
  | _ => false
  end.

(** The pattern [\[\d+\]$] at the start of [s]; the result is the text
    after the match (empty, or the final newline). *)
Definition match_index_suffix (s : string) : option string :=
  match s with
  | String b (String d r) =>
      if Ascii.eqb b "["%char && isdigit d then
        match skip_digits r with
        | String e t =>
            if Ascii.eqb e "]"%char && at_dollar t then Some t else None
        | EmptyString => None
        end
      else None
  | _ => None
  end.

(** [re.sub(r'\[\d+\]$', '', s)]. *)
Fixpoint sub_index_suffix (s : string) : string :=
  match match_index_suffix s with
  | Some t => t
  | None =>
      match s with
      | EmptyString => EmptyString
      | String c r => String c (sub_index_suffix r)
      end
  end.

(** [\d{1,2}], greedy with backtracking: the ways to split [s] after its
    leading digits, two digits first, then one. *)
Definition digits_1_2 (s : string) : list (string * string) :=
  match s with
  | String a r =>
      if isdigit a then
        match r with
        | String b r' =>
            if isdigit b
            then [(String a (String b EmptyString), r');
                  (String a EmptyString, r)]
            else [(String a EmptyString, r)]
        | EmptyString => [(String a EmptyString, r)]
        end
      else []
  | EmptyString => []
  end.

(** The class [[/-]]. *)
Definition date_sep (s : string) : option (ascii * string) :=
  match s with
  | String c r =>
      if Ascii.eqb c "/"%char || Ascii.eqb c "-"%char
      then Some (c, r) else None
  | EmptyString => None
  end.

(** [\d{4}]. *)
Definition digits_4 (s : string) : option (string * string) :=
  match s with
  | String a (String b (String c (String d r))) =>
      if isdigit a && isdigit b && isdigit c && isdigit d
      then Some (String a (String b (String c (String d EmptyString))), r)
      else None
  | _ => None
  end.

(** The first alternative that succeeds, in the order of the list. *)
Fixpoint first_some {A B : Type} (f : A -> option B) (l : list A)
  : option B :=
  match l with
  | [] => None
  | x :: r => match f x with Some y => Some y | None => first_some f r end
  end.

(** The group [(\d{1,2}[/-]\d{1,2}[/-]\d{4})] at the start of [s]: the
    text it captures. *)
Definition match_date (s : string) : option string :=
  first_some (fun '(d1, r1) =>
    match date_sep r1 with
    | None => None
    | Some (s1, r2) =>
        first_some (fun '(d2, r3) =>
          match date_sep r3 with
          | None => None
          | Some (s2, r4) =>
              match digits_4 r4 with
              | None => None
              | Some (y, _) => Some (d1 +:+ String s1 d2 +:+ String s2 y)
              end
          end) (digits_1_2 r2)
    end) (digits_1_2 s).

(** [.*?] followed by the date group: the date is tried at each position
    in turn, and [.] steps over any character but a newline. *)
Fixpoint lazy_dot_then_date (s : string) : option string :=
  match match_date s with
  | Some d => Some d
  | None =>
      match s with
      | EmptyString => None
      | String c r => if Ascii.eqb c LF then None else lazy_dot_then_date r
      end
  end.

Definition agm_phrase : string := "annual general meeting".

(** The whole pattern of the AGM rule at the start of [s]. *)
Definition match_agm (s : string) : option string :=
  match match_literal_i agm_phrase s with
  | Some r => lazy_dot_then_date r
  | None => None
  end.

(** [re.search(r'annual general meeting.*?(\d{1,2}[/-]\d{1,2}[/-]\d{4})',
    s, re.IGNORECASE)]: [None], or group 1 of the leftmost match. *)
Fixpoint search_agm (s : string) : option string :=
  match match_agm s with
  | Some d => Some d
  | None =>
      match s with
      | EmptyString => None
      | String _ r => search_agm r
      end
  end.

End Re.

(** ** Python dictionaries *)

(** A dict display [{k1: v1, k2: v2, ...}]: the items are inserted from
    left to right, a repeated key keeps its last value. *)
Definition dict_of_items {V : Type} (l : list (string * V))
  : gmap string V :=
  foldl (fun d kv => <[kv.1 := kv.2]> d) ∅ l.

(** [d.keys()], in some order. *)
Definition dict_keys {V : Type} (d : gmap string V) : list string :=
  (map_to_list d).*1.

(** ** extractor.py: the records of the assembled document *)

(** The [context] dict of [extract_contextual_information]: each of its
    seven possible keys is present ([Some]) or absent ([None]). *)
Module Context.
Record t := mk {
  appointment_type : option string;
  company_type : option string;
  regulatory_sections : option (list string);
  agm_conducted : option bool;
  agm_date : option string;
  auditor_qualification : option string;
  joint_auditors : option bool
}.
End Context.

Module SummaryContext.
Record t := mk {
  purpose : string;
  legal_framework : string;
  appointment_nature : string;
  compliance_sections : list string
}.
End SummaryContext.

Module CompanyInformation.
Record t := mk {
  name : string;
  cin : string;
  type : string;
  email : string;
  address : string;
  state : string;
  pincode : string
}.
End CompanyInformation.

Module AuditorInformation.
Record t := mk {
  firm_name : string;
  pan : string;
  membership_number : string;
  email : string;
  address : string;
  qualification : string;
  number_of_auditors : string;
  joint_appointment : bool
}.
End AuditorInformation.

Module AppointmentDetails.
Record t := mk {
  appointment_date : string;
  audit_period_start : string;
  audit_period_end : string;
  financial_years_count : string;
  agm_date : string;
  agm_conducted : bool;
  resolution_number : string;
  director_din : string
}.
End AppointmentDetails.

Module ComplianceInformation.
Record t := mk {
  form_filing_date : string;
  receipt_date : string;
  certificate_serial : string;
  attachments : list string;
  digital_signature : string
}.
End ComplianceInformation.

Module SummaryTemplate.
Record t := mk {
  executive_summary : string;
  key_parties : string;
  timeline : string;
  compliance_status : string
}.
End SummaryTemplate.

Module LlmData.
Record t := mk {
  document_type : string;
  summary_context : SummaryContext.t;
  company_information : CompanyInformation.t;
  auditor_information : AuditorInformation.t;
  appointment_details : AppointmentDetails.t;
  compliance_information : ComplianceInformation.t;
  key_narrative_points : list string;
  summary_template : SummaryTemplate.t
}.
End LlmData.

(** ** extractor.py: class Extractor *)

Module Extractor.
Import PyStr.

Record t := mk {
  pdf_path : string;
  field_mapping : gmap string string
}.

(** The dict display of [__init__], item by item. *)
Definition field_mapping_items : list (string * string) :=
  [ ("CIN_C", "company_cin");
    ("CompanyName_C", "company_name");
    ("EmailId_C", "company_email");
    ("GLN_C", "company_gln");
    ("permaddress1a_C", "company_address_line1");
    ("permaddress2a_C", "company_address_line2");
    ("permaddress2b_C", "company_address_line2_alt");
    ("permaddress3a_C", "company_address_line3");
    ("cityname_C", "company_city");
    ("City_C", "company_city_alt");
    ("pincode_C", "company_pincode");
    ("Pin_C", "company_pincode_alt");
    ("statename_C", "company_state");
    ("State_P", "company_state_alt");
    ("countryname_C", "company_country");
    ("Country_C", "company_country_alt");
    ("PAN_C", "auditor_pan");
    ("NameAuditorFirm_C", "auditor_firm_name");
    ("MemberShNum", "auditor_membership_number");
    ("AuditorNumber", "number_of_auditors");
    ("auditoraddress1a_C", "auditor_address_line1");
    ("auditoraddress2a_C", "auditor_address_line2");
    ("auditoraddress3a_C", "auditor_address_line3");
    ("auditorcityname_C", "auditor_city");
    ("auditorpincode_C", "auditor_pincode");
    ("auditorstatename_C", "auditor_state");
    ("auditorcountryname_C", "auditor_country");
    ("auditoremailid_C", "auditor_email");
    ("email", "auditor_email_alt");
    ("appointmentdate_C", "appointment_date");
    ("agmdate_C", "agm_date");
    ("DateAnnualGenMeet_D", "agm_date_alt");
    ("periodfrom_C", "period_from");
    ("periodto_C", "period_to");
    ("DateOfAccAuditedFrom_D", "audit_period_from");
    ("DateOfAccAuditedTo_D", "audit_period_to");
    ("nofinyears_C", "number_of_financial_years");
    ("NumOfFinanYearApp", "number_of_financial_years_alt");
    ("CurrDate", "current_date");
    ("current_date", "form_date");
    ("DateOfAppSect_D", "appointment_section_date");
    ("DateReceipt_D", "receipt_date");
    ("DINOfDir_C", "director_din");
    ("ResoNum", "resolution_number");
    ("serialNumber", "certificate_serial_number");
    ("Attachment_C", "attachments") ].

Definition __init__ (pdf_path : string) : t :=
  {| pdf_path := pdf_path;
     field_mapping := dict_of_items field_mapping_items |}.

(** The reserved substrings of the "system/hidden fields" test. *)
Definition blocklist : list string :=
  ["hidden"; "sid"; "call_id"; "form_id"; "version"; "reader"; "sign"].

(** [any(x in name.lower() for x in [...])]. *)
Definition is_system_field (name : string) : bool :=
  existsb (fun x => contains x (lower name)) blocklist.

(** One turn of the loop of [clean_and_map_form_fields].  A raw value is
    [None] (Python's [None]) or a string. *)
Definition clean_and_map_step (self : t) (cleaned_fields : gmap string string)
    (item : string * option string) : gmap string string :=
  let '(field_name, field_value) := item in
  match field_value with
  | None => cleaned_fields
  | Some value =>
      if negb (truthy value) || negb (truthy (strip value))
      then cleaned_fields
      else
        let clean_field_name := Re.sub_index_suffix field_name in
        let mapped_name :=
          default clean_field_name (field_mapping self !! clean_field_name) in
        let clean_value := strip value in
        if is_system_field clean_field_name
        then cleaned_fields
        else <[mapped_name := clean_value]> cleaned_fields
  end.

Definition clean_and_map_form_fields (self : t)
    (form_fields : list (string * option string)) : gmap string string :=
  foldl (clean_and_map_step self) ∅ form_fields.

(** First loop of [consolidate_duplicate_fields]: the state is the pair
    [(consolidated, alt_fields)]. *)
Definition split_alt_step (field value : string)
    (st : gmap string string * gmap string string)
  : gmap string string * gmap string string :=
  let '(consolidated, alt_fields) := st in
  if endswith "_alt" field
  then (consolidated, <[drop_last 4 field := value]> alt_fields)
  else (<[field := value]> consolidated, alt_fields).

(** Second loop: an alt value fills a primary that is absent or empty. *)
Definition use_alt_step (base_field alt_value : string)
    (consolidated : gmap string string) : gmap string string :=
  match consolidated !! base_field with
  | None => <[base_field := alt_value]> consolidated
  | Some v =>
      if negb (truthy v) then <[base_field := alt_value]> consolidated
      else consolidated
  end.

Definition consolidate_duplicate_fields (cleaned_fields : gmap string string)
  : gmap string string :=
  let '(consolidated, alt_fields) :=
    map_fold split_alt_step (∅, ∅) cleaned_fields in
  map_fold use_alt_step consolidated alt_fields.

(** The [if]/[elif] chains of [extract_contextual_information]: the value
    of the first rule whose pattern is found. *)
Fixpoint first_rule (rules : list (string * string)) (raw_text : string)
  : option string :=
  match rules with
  | [] => None
  | (pattern, value) :: rest =>
      if Re.search_literal_i pattern raw_text then Some value
      else first_rule rest raw_text
  end.

Definition appointment_type_rules : list (string * string) :=
  [ ("first appointment", "First Appointment");
    ("reappointment", "Reappointment");
    ("casual vacancy", "Casual Vacancy") ].

Definition company_type_rules : list (string * string) :=
  [ ("private limited", "Private Limited Company");
    ("public limited", "Public Limited Company");
    ("one person company", "One Person Company") ].

Definition extract_contextual_information (raw_text : string) : Context.t :=
  let agm_match := Re.search_agm raw_text in
  {| Context.appointment_type :=
       Some (default "Unknown" (first_rule appointment_type_rules raw_text));
     Context.company_type := first_rule company_type_rules raw_text;
     Context.regulatory_sections :=
       Some ((if Re.search_literal_i "section 139" raw_text
              then ["Section 139 - Appointment of Auditors"] else [])
             ++ (if Re.search_literal_i "section 140" raw_text
                 then ["Section 140 - Removal of Auditors"] else []));
     Context.agm_conducted :=
       Some (match agm_match with Some _ => true | None => false end);
     Context.agm_date := agm_match;
     Context.auditor_qualification :=
       if Re.search_literal_i "chartered accountant" raw_text
       then Some "Chartered Accountant" else None;
     Context.joint_auditors :=
       Some (Re.search_literal_i "joint auditor" raw_text) |}.

(** [fields[k]] taken only when [k in fields and fields[k]]; also
    [fields.get(k)] used as a condition. *)
Definition nonempty_field (fields : gmap string string) (k : string)
  : option string :=
  match fields !! k with
  | Some v => if truthy v then Some v else None
  | None => None
  end.

Definition _build_address (fields : gmap string string) (prefix : string)
  : string :=
  let lines :=
    omap (fun i => nonempty_field fields (prefix +:+ "_address_line" +:+ i))
         ["1"; "2"; "3"] in
  let city := default "" (fields !! (prefix +:+ "_city")) in
  let state := default "" (fields !! (prefix +:+ "_state")) in
  let pincode := default "" (fields !! (prefix +:+ "_pincode")) in
  let address_parts :=
    lines ++ (if truthy city then [city] else [])
          ++ (if truthy state then [state] else [])
          ++ (if truthy pincode then [pincode] else []) in
  match address_parts with
  | [] => "Not specified"
  | _ => join ", " address_parts
  end.

Definition _parse_attachments (attachments_str : string) : list string :=
  if negb (truthy attachments_str) then []
  else omap (fun att => if truthy (strip att) then Some (strip att) else None)
            (split_char "," attachments_str).

(** One conditional [points.append(...)]. *)
Definition point (o : option string) : list string :=
  match o with Some p => [p] | None => [] end.

Definition _extract_narrative_points (fields : gmap string string)
    (context : Context.t) (raw_text : string) : list string :=
  point (name ← nonempty_field fields "company_name";
         Some ("The company " +:+ name +:+ " has appointed an auditor"))
  ++ point (ty ← Context.appointment_type context;
            if truthy ty then Some ("This is a " +:+ lower ty) else None)
  ++ point (firm ← nonempty_field fields "auditor_firm_name";
            Some ("The appointed auditor is " +:+ firm))
  ++ point (match Context.joint_auditors context with
            | Some true => Some "Joint auditors have been appointed"
            | _ => None
            end)
  ++ point (from ← nonempty_field fields "audit_period_from";
            to ← nonempty_field fields "audit_period_to";
            Some ("Audit period is from " +:+ from +:+ " to " +:+ to))
  ++ point (n ← nonempty_field fields "number_of_financial_years";
            Some ("Appointment covers " +:+ n +:+ " financial year(s)"))
  ++ point (match Context.agm_conducted context with
            | Some true =>
                d ← Context.agm_date context;
                if truthy d
                then Some ("Annual General Meeting was conducted on " +:+ d)
                else None
            | _ => None
            end)
  ++ point (d ← nonempty_field fields "form_date";
            Some ("Form was filed on " +:+ d)).

Definition the_summary_template : SummaryTemplate.t :=
  {| SummaryTemplate.executive_summary :=
       "This ADT-1 form represents the {appointment_nature} of {auditor_firm_name} as auditor for {company_name} (CIN: {company_cin}) for the financial period from {audit_period_start} to {audit_period_end}.";
     SummaryTemplate.key_parties :=
       "Company: {company_name}, Auditor: {auditor_firm_name}";
     SummaryTemplate.timeline :=
       "Appointment effective from {appointment_date}, covering {financial_years_count} financial year(s)";
     SummaryTemplate.compliance_status :=
       "Form filed on {form_filing_date} with certificate serial {certificate_serial}" |}.

(** The dict display of [create_llm_ready_summary_data], for a given
    [context]. *)
Definition assemble (fields : gmap string string) (context : Context.t)
    (raw_text : string) : LlmData.t :=
  let get k d := default d (fields !! k) in
  {| LlmData.document_type := "ADT-1 Form - Notice of Auditor Appointment";
     LlmData.summary_context :=
       {| SummaryContext.purpose :=
            "This document notifies the Registrar of Companies about the appointment of an auditor";
          SummaryContext.legal_framework :=
            "Filed under the Companies Act, 2013";
          SummaryContext.appointment_nature :=
            default "Unknown" (Context.appointment_type context);
          SummaryContext.compliance_sections :=
            default [] (Context.regulatory_sections context) |};
     LlmData.company_information :=
       {| CompanyInformation.name := get "company_name" "Not specified";
          CompanyInformation.cin := get "company_cin" "Not specified";
          CompanyInformation.type :=
            default "Not specified" (Context.company_type context);
          CompanyInformation.email := get "company_email" "Not specified";
          CompanyInformation.address := _build_address fields "company";
          CompanyInformation.state := get "company_state" "Not specified";
          CompanyInformation.pincode :=
            get "company_pincode" "Not specified" |};
     LlmData.auditor_information :=
       {| AuditorInformation.firm_name :=
            get "auditor_firm_name" "Not specified";
          AuditorInformation.pan := get "auditor_pan" "Not specified";
          AuditorInformation.membership_number :=
            get "auditor_membership_number" "Not specified";
          AuditorInformation.email := get "auditor_email" "Not specified";
          AuditorInformation.address := _build_address fields "auditor";
          AuditorInformation.qualification :=
            default "Not specified" (Context.auditor_qualification context);
          AuditorInformation.number_of_auditors :=
            get "number_of_auditors" "1";
          AuditorInformation.joint_appointment :=
            default false (Context.joint_auditors context) |};
     LlmData.appointment_details :=
       {| AppointmentDetails.appointment_date :=
            get "appointment_date" "Not specified";
          AppointmentDetails.audit_period_start :=
            get "audit_period_from" "Not specified";
          AppointmentDetails.audit_period_end :=
            get "audit_period_to" "Not specified";
          AppointmentDetails.financial_years_count :=
            get "number_of_financial_years" "Not specified";
          AppointmentDetails.agm_date :=
            get "agm_date"
                (default "Not specified" (Context.agm_date context));
          AppointmentDetails.agm_conducted :=
            default false (Context.agm_conducted context);
          AppointmentDetails.resolution_number :=
            get "resolution_number" "Not specified";
          AppointmentDetails.director_din :=
            get "director_din" "Not specified" |};
     LlmData.compliance_information :=
       {| ComplianceInformation.form_filing_date :=
            get "form_date" (get "current_date" "Not specified");
          ComplianceInformation.receipt_date :=
            get "receipt_date" "Not specified";
          ComplianceInformation.certificate_serial :=
            get "certificate_serial_number" "Not specified";
          ComplianceInformation.attachments :=
            _parse_attachments (get "attachments" "");
          ComplianceInformation.digital_signature :=
            if existsb (fun k => contains "sign" (lower k)) (dict_keys fields)
            then "Present" else "Not verified" |};
     LlmData.key_narrative_points :=
       _extract_narrative_points fields context raw_text;
     LlmData.summary_template := the_summary_template |}.

Definition create_llm_ready_summary_data (fields : gmap string string)
    (raw_text : string) : LlmData.t :=
  let context := extract_contextual_information raw_text in
  assemble fields context raw_text.

(** The part of [extract_for_llm_summary] between the two readers and the
    prompts: from the raw fields and the raw text to [llm_data]. *)
Definition extract_structured_data (self : t)
    (form_fields : list (string * option string)) (raw_text : string)
  : LlmData.t :=
  let cleaned_fields := clean_and_map_form_fields self form_fields in
  let consolidated_fields := consolidate_duplicate_fields cleaned_fields in
  create_llm_ready_summary_data consolidated_fields raw_text.

(** Three entries of [final_data] in [extract_for_llm_summary]: the two
    counts of [extraction_metadata], which are [len(form_fields)] and
    [len(consolidated_fields)], and [raw_text_sample]. *)
Definition total_fields_extracted
    (form_fields : list (string * option string)) : nat :=
  length form_fields.

Definition processed_fields (consolidated_fields : gmap string string) : nat :=
  size consolidated_fields.

Definition raw_text_sample (raw_text : string) : string :=
  if (1000 <? String.length raw_text)%nat
  then String.substring 0 1000 raw_text +:+ "..."
  else raw_text.

End Extractor.

(** ** Python values read from JSON, and the exceptions raised on them *)

Module Py.
Import PyStr.

(** What [json.load] returns: [None], a bool, an int, a str, a list or a
    dict, whose items are kept in their order (the keys of a dict are
    distinct).  Numbers with a fraction or an exponent are left out. *)
#[local] Set Warnings "-register-all".
Inductive value :=
  | VNone
  | VBool (b : bool)
  | VInt (z : Z)
  | VStr (s : string)
  | VList (l : list value)
  | VDict (items : list (string * value)).

Inductive exn := KeyError | TypeError | IndexError | AttributeError.

Inductive result (A : Type) :=
  | Ok (a : A)
  | Raise (e : exn).
Arguments Ok {A} a.
Arguments Raise {A} e.

(** Sequencing: the first exception raised ends the computation. *)
#[global] Instance result_bind : MBind result :=
  fun A B (k : A -> result B) (r : result A) =>
    match r with
    | Ok a => k a
    | Raise e => Raise e
    end.

(** First item with key [k]. *)
Fixpoint lookup_item (k : string) (items : list (string * value))
  : option value :=
  match items with
  | [] => None
  | (k', v) :: r => if String.eqb k' k then Some v else lookup_item k r
  end.

(** [v[k]] for a string [k]: only a dict accepts a string subscript. *)
Definition getitem (v : value) (k : string) : result value :=
  match v with
  | VDict items =>
      match lookup_item k items with
      | Some x => Ok x
      | None => Raise KeyError
      end
  | _ => Raise TypeError
  end.

(** [v[0]]: the first element of a list, the first character of a str;
    a dict read from JSON has no key [0]. *)
Definition getitem_0 (v : value) : result value :=
  match v with
  | VList (x :: _) => Ok x
  | VList [] => Raise IndexError
  | VStr (String c _) => Ok (VStr (String c EmptyString))
  | VStr EmptyString => Raise IndexError
  | VDict _ => Raise KeyError
  | _ => Raise TypeError
  end.

(** [v.split()] and [v.lower()]: methods of str alone. *)
Definition split (v : value) : result (list string) :=
  match v with
  | VStr s => Ok (split_ws s)
  | _ => Raise AttributeError
  end.

Definition lower (v : value) : result string :=
  match v with
  | VStr s => Ok (PyStr.lower s)
  | _ => Raise AttributeError
  end.

(** [l[0]] on a list of strings. *)
Definition head_str (l : list string) : result string :=
  match l with
  | x :: _ => Ok x
  | [] => Raise IndexError
  end.

(** Truth value. *)
Definition truthy (v : value) : bool :=
  match v with
  | VNone => false
  | VBool b => b
  | VInt z => negb (z =? 0)%Z
  | VStr s => PyStr.truthy s
  | VList l => match l with [] => false | _ => true end
  | VDict d => match d with [] => false | _ => true end
  end.

Definition hex_digit (n : N) : ascii :=
  ascii_of_N (if (n <? 10)%N then 48 + n else 87 + n).

(** [str.isprintable] on one character. *)
Definition isprintable (c : ascii) : bool :=
  let n := code c in
  ((32 <=? n) && (n <? 127) || (161 <=? n) && negb (n =? 173))%N.

(** One character of [repr(s)], inside the quote [q]. *)
Definition repr_char (q c : ascii) : string :=
  let n := code c in
  if Ascii.eqb c q || Ascii.eqb c "\"%char
  then String "\"%char (String c EmptyString)
  else if (n =? 9)%N then "\t"
  else if (n =? 10)%N then "\n"
  else if (n =? 13)%N then "\r"
  else if isprintable c then String c EmptyString
  else String "\"%char (String "x"%char
         (String (hex_digit (n / 16)) (String (hex_digit (n mod 16))
            EmptyString))).

Fixpoint concat_map (f : ascii -> string) (s : string) : string :=
  match s with
  | EmptyString => EmptyString
  | String c r => f c +:+ concat_map f r
  end.

Definition apostrophe : ascii := ascii_of_N 39.
Definition dquote : ascii := ascii_of_N 34.

(** [repr(s)]: single quotes, unless [s] has one and no double quote. *)
Definition repr_str (s : string) : string :=
  let q :=
    if contains (String apostrophe EmptyString) s
       && negb (contains (String dquote EmptyString) s)
    then dquote else apostrophe in
  String q (concat_map (repr_char q) s) +:+ String q EmptyString.

Definition str_of_int (z : Z) : string := NilZero.string_of_int (Z.to_int z).

Fixpoint repr (v : value) : string :=
  match v with
  | VNone => "None"
  | VBool b => if b then "True" else "False"
  | VInt z => str_of_int z
  | VStr s => repr_str s
  | VList l => "[" +:+ join ", " (map repr l) +:+ "]"
  | VDict items =>
      "{" +:+ join ", " (map (fun kv => match kv with
                                       | (k, x) => repr_str k +:+ ": " +:+ repr x
                                       end) items) +:+ "}"
  end.

(** [str(v)], which is what [{v}] in an f-string renders. *)
Definition str (v : value) : string :=
  match v with
  | VStr s => s
  | _ => repr v
  end.

End Py.

(** ** summary.py: class Summary *)

Module Summary.
Import Py.

(** The f-string of [generate_summary], as a function of the texts it
    interpolates; [joint] is the truth value of [joint_appointment]. *)
Definition paragraph (name cin firm_name pan nature audit_period_start
    audit_period_end financial_years_count : string) (joint : bool)
    (section filing_date certificate_serial : string) : string :=
  name +:+ " (CIN: " +:+ cin +:+ ") has appointed "
  +:+ firm_name +:+ " (PAN: " +:+ pan +:+ ") as auditors to fill a "
  +:+ nature +:+ " . The appointment covers an audit period "
  +:+ "from " +:+ audit_period_start +:+ " to " +:+ audit_period_end +:+ ", "
  +:+ "spanning " +:+ financial_years_count +:+ " financial years. This "
  +:+ (if joint then "joint " else "") +:+ "appointment was formalized under "
  +:+ section +:+ " of the Companies Act, 2013, with the form filed on "
  +:+ filing_date +:+ " (Certificate Serial: " +:+ certificate_serial +:+ ").".

(** [generate_summary], from the value [data] that [json.load] returned.
    The subscripts are evaluated in the order of the source: the five
    sections, the filing date, then the expressions of the f-string from
    left to right. *)
Definition generate_summary (data : value) : result string :=
  structured_data ← getitem data "structured_data";
  company ← getitem structured_data "company_information";
  auditor ← getitem structured_data "auditor_information";
  appointment ← getitem structured_data "appointment_details";
  compliance ← getitem structured_data "compliance_information";
  context ← getitem structured_data "summary_context";
  form_filing_date ← getitem compliance "form_filing_date";
  tokens ← split form_filing_date;
  filing_date ← head_str tokens;
  name ← getitem company "name";
  cin ← getitem company "cin";
  firm_name ← getitem auditor "firm_name";
  pan ← getitem auditor "pan";
  appointment_nature ← getitem context "appointment_nature";
  nature ← lower appointment_nature;
  audit_period_start ← getitem appointment "audit_period_start";
  audit_period_end ← getitem appointment "audit_period_end";
  financial_years_count ← getitem appointment "financial_years_count";
  joint_appointment ← getitem auditor "joint_appointment";
  compliance_sections ← getitem context "compliance_sections";
  section ← getitem_0 compliance_sections;
  certificate_serial ← getitem compliance "certificate_serial";
  Ok (paragraph (str name) (str cin) (str firm_name) (str pan) nature
        (str audit_period_start) (str audit_period_end)
        (str financial_years_count) (truthy joint_appointment)
        (str section) filing_date (str certificate_serial)).

End Summary.

(** * The vocabulary of the properties *)

(** ** Strings *)

Module StrSpec.
Import PyStr.

(** Whitespace-only strings, the empty one included. *)
Fixpoint all_space (s : string) : bool :=
  match s with
  | EmptyString => true
  | String c r => isspace c && all_space r
  end.



End StrSpec.

(** ** Occurrences in a text *)

Module ReSpec.
Import PyStr Re.

(** Some stretch of [text] reads as [phrase] when case is ignored. *)
Definition Mentions (phrase text : string) : Prop :=
  exists a m b, text = a +:+ m +:+ b /\ lower m = lower phrase.

Fixpoint all_digits (s : string) : bool :=
  match s with
  | EmptyString => true
  | String c r => isdigit c && all_digits r
  end.

Definition is_date_sep (c : ascii) : bool :=
  Ascii.eqb c "/"%char || Ascii.eqb c "-"%char.

(** One or two digits, [/] or [-], one or two digits, [/] or [-], four
    digits. *)
Definition DateToken (d : string) : Prop :=
  exists d1 s1 d2 s2 y,
    d = d1 +:+ String s1 (d2 +:+ String s2 y) /\
    all_digits d1 = true /\
    (String.length d1 = 1 \/ String.length d1 = 2)%nat /\
    is_date_sep s1 = true /\
    all_digits d2 = true /\
    (String.length d2 = 1 \/ String.length d2 = 2)%nat /\
    is_date_sep s2 = true /\
    all_digits y = true /\ String.length y = 4%nat.

(** No newline in the text. *)
Fixpoint one_line (s : string) : bool :=
  match s with
  | EmptyString => true
  | String c r => negb (Ascii.eqb c LF) && one_line r
  end.

(** The text has the AGM phrase (case ignored), then a stretch [mid]
    accepted by [ok], then the date token [d]. *)
Definition AgmOccurs (ok : string -> Prop) (text d : string) : Prop :=
  exists pre ph mid post,
    text = pre +:+ ph +:+ mid +:+ d +:+ post /\
    lower ph = agm_phrase /\ ok mid /\ DateToken d.

Definition same_line (mid : string) : Prop := one_line mid = true.

(** The text [s] starts with the AGM phrase (case ignored), followed on
    its line by a date token. *)
Definition AgmAt (s : string) : Prop :=
  exists ph mid d post,
    s = ph +:+ mid +:+ d +:+ post /\
    lower ph = agm_phrase /\ one_line mid = true /\ DateToken d.

(** In the text [mid +:+ rest], no date token starts at a position of
    [mid]. *)
Definition NoDateIn (mid rest : string) : Prop :=
  forall m1 m2 d r,
    mid = m1 +:+ m2 -> m2 <> "" -> m2 +:+ rest = d +:+ r -> ~ DateToken d.

(** In the text [pre +:+ rest], no position of [pre] starts the AGM
    phrase followed on its line by a date token. *)
Definition NoAgmIn (pre rest : string) : Prop :=
  forall p1 p2, pre = p1 +:+ p2 -> p2 <> "" -> ~ AgmAt (p2 +:+ rest).

(** [d] is the date token of the first AGM mention of [text]: the
    leftmost position where the phrase starts and is followed on its line
    by a date token, and after the phrase the first position where a date
    token starts. *)
Definition FirstAgm (text d : string) : Prop :=
  exists pre ph mid post,
    text = pre +:+ ph +:+ mid +:+ d +:+ post /\
    lower ph = agm_phrase /\ one_line mid = true /\ DateToken d /\
    NoDateIn mid (d +:+ post) /\
    NoAgmIn pre (ph +:+ mid +:+ d +:+ post).

End ReSpec.

(** ** Fields *)

Module ExtractorSpec.
Import PyStr Extractor.

(** Where an entry of the mapper's output comes from: a raw item with a
    value that is not blank and an identifier that is not reserved. *)
Definition maps_to (self : t) (item : string * option string)
    (k v : string) : Prop :=
  exists value,
    item.2 = Some value /\
    strip value <> "" /\
    is_system_field (Re.sub_index_suffix item.1) = false /\
    k = default (Re.sub_index_suffix item.1)
                (field_mapping self !! Re.sub_index_suffix item.1) /\
    v = strip value.

(** No canonical name of the table is itself a reserved name. *)
Definition table_clean (self : t) : Prop :=
  forall k v, field_mapping self !! k = Some v -> is_system_field v = false.

(** The value of key [k] after consolidation, read off the input. *)
Definition consolidated_value (m : gmap string string) (k : string)
  : option string :=
  let primary := if endswith "_alt" k then None else m !! k in
  let alt := m !! (k +:+ "_alt") in
  match primary with
  | Some v =>
      if truthy v then Some v
      else match alt with Some a => Some a | None => Some v end
  | None => alt
  end.

(** The resolution rule of the specification: the explicit canonical
    field if present, else the context-derived value if there is one,
    else the sentinel. *)
Definition resolve {A : Type} (explicit context_derived : option A)
    (sentinel : A) : A :=
  match explicit with
  | Some v => v
  | None =>
      match context_derived with
      | Some c => c
      | None => sentinel
      end
  end.

Definition empty_context : Context.t :=
  Context.mk None None None None None None None.

End ExtractorSpec.

(** ** The keys the summary reads *)

Module SummarySpec.
Import Py Summary.

(** [data[k1][k2]...], for a path of string keys. *)
Fixpoint getpath (v : value) (path : list string) : result value :=
  match path with
  | [] => Ok v
  | k :: rest => x ← getitem v k; getpath x rest
  end.

Definition in_section (section key : string) : list string :=
  ["structured_data"; section; key].

(** The twelve nested keys the formatter reads. *)
Definition name_key := in_section "company_information" "name".
Definition cin_key := in_section "company_information" "cin".
Definition firm_name_key := in_section "auditor_information" "firm_name".
Definition pan_key := in_section "auditor_information" "pan".
Definition nature_key := in_section "summary_context" "appointment_nature".
Definition start_key := in_section "appointment_details" "audit_period_start".
Definition end_key := in_section "appointment_details" "audit_period_end".
Definition count_key :=
  in_section "appointment_details" "financial_years_count".
Definition joint_key := in_section "auditor_information" "joint_appointment".
Definition sections_key := in_section "summary_context" "compliance_sections".
Definition date_key := in_section "compliance_information" "form_filing_date".
Definition serial_key :=
  in_section "compliance_information" "certificate_serial".


(** The values found under the twelve keys. *)
Record required := {
  name : value;
  cin : value;
  firm_name : value;
  pan : value;
  nature : value;
  audit_period_start : value;
  audit_period_end : value;
  financial_years_count : value;
  joint_appointment : value;
  compliance_sections : value;
  form_filing_date : value;
  certificate_serial : value
}.

(** All twelve keys are there in [data], with the values [r]. *)
Definition reads (data : value) (r : required) : Prop :=
  getpath data name_key = Ok (name r) /\
  getpath data cin_key = Ok (cin r) /\
  getpath data firm_name_key = Ok (firm_name r) /\
  getpath data pan_key = Ok (pan r) /\
  getpath data nature_key = Ok (nature r) /\
  getpath data start_key = Ok (audit_period_start r) /\
  getpath data end_key = Ok (audit_period_end r) /\
  getpath data count_key = Ok (financial_years_count r) /\
  getpath data joint_key = Ok (joint_appointment r) /\
  getpath data sections_key = Ok (compliance_sections r) /\
  getpath data date_key = Ok (form_filing_date r) /\
  getpath data serial_key = Ok (certificate_serial r).

(** What is left to do once the twelve values are at hand and the filing
    date has been cut down to [filing_date]. *)
Definition render_with (filing_date : string) (r : required)
  : result string :=
  n ← lower (nature r);
  section ← getitem_0 (compliance_sections r);
  Ok (paragraph (str (name r)) (str (cin r)) (str (firm_name r))
        (str (pan r)) n (str (audit_period_start r))
        (str (audit_period_end r)) (str (financial_years_count r))
        (truthy (joint_appointment r)) (str section) filing_date
        (str (certificate_serial r))).

Definition render (r : required) : result string :=
  tokens ← split (form_filing_date r);
  filing_date ← head_str tokens;
  render_with filing_date r.



End SummarySpec.

(** ** Raw items and what the mapper does with them *)

Module MapperSpec.
Import PyStr Extractor.

(** An index in brackets, as it ends a raw identifier: [[ds]]. *)
Definition index_suffix (ds : string) : string := "[" +:+ ds +:+ "]".

(** The character [c] occurs in [s]. *)
Fixpoint has_char (c : ascii) (s : string) : bool :=
  match s with
  | EmptyString => false
  | String a r => Ascii.eqb a c || has_char c r
  end.

(** The name under which the mapper stores a raw identifier. *)
Definition canonical_name (self : t) (field_name : string) : string :=
  default (Re.sub_index_suffix field_name)
          (field_mapping self !! Re.sub_index_suffix field_name).

(** The raw items the mapper keeps: a value that is not blank under an
    identifier that is not reserved. *)
Definition kept (item : string * option string) : Prop :=
  exists value,
    item.2 = Some value /\ strip value <> "" /\
    is_system_field (Re.sub_index_suffix item.1) = false.

(** The six components of an address, in the order of the builder. *)
Definition address_components (fields : gmap string string) (prefix : string)
  : list (option string) :=
  [ fields !! (prefix +:+ "_address_line1");
    fields !! (prefix +:+ "_address_line2");
    fields !! (prefix +:+ "_address_line3");
    fields !! (prefix +:+ "_city");
    fields !! (prefix +:+ "_state");
    fields !! (prefix +:+ "_pincode") ].

(** The components that are present and not empty. *)
Definition present_parts (components : list (option string)) : list string :=
  omap (fun o => match o with
                 | Some v => if truthy v then Some v else None
                 | None => None
                 end) components.

(** The texts of a document: the appointment nature, the strings of the
    four information sections, and the attachments. *)
Definition information_texts (d : LlmData.t) : list string :=
  let company := LlmData.company_information d in
  let auditor := LlmData.auditor_information d in
  let appointment := LlmData.appointment_details d in
  let compliance := LlmData.compliance_information d in
  [ SummaryContext.appointment_nature (LlmData.summary_context d);
    CompanyInformation.name company;
    CompanyInformation.cin company;
    CompanyInformation.type company;
    CompanyInformation.email company;
    CompanyInformation.address company;
    CompanyInformation.state company;
    CompanyInformation.pincode company;
    AuditorInformation.firm_name auditor;
    AuditorInformation.pan auditor;
    AuditorInformation.membership_number auditor;
    AuditorInformation.email auditor;
    AuditorInformation.address auditor;
    AuditorInformation.qualification auditor;
    AuditorInformation.number_of_auditors auditor;
    AppointmentDetails.appointment_date appointment;
    AppointmentDetails.audit_period_start appointment;
    AppointmentDetails.audit_period_end appointment;
    AppointmentDetails.financial_years_count appointment;
    AppointmentDetails.agm_date appointment;
    AppointmentDetails.resolution_number appointment;
    AppointmentDetails.director_din appointment;
    ComplianceInformation.form_filing_date compliance;
    ComplianceInformation.receipt_date compliance;
    ComplianceInformation.certificate_serial compliance;
    ComplianceInformation.digital_signature compliance ]
  ++ ComplianceInformation.attachments compliance.

End MapperSpec.

(** * Properties *)

(** Let [simpl] unfold an append whose first argument is a constructor. *)
#[local] Arguments String.append !_ _.

(** ** The model at work *)

Example lower_ex : PyStr.lower "First Appointment" = "first appointment".
Proof. reflexivity. Qed.

Example strip_ex : PyStr.strip "  a b  " = "a b".
Proof. reflexivity. Qed.

Example endswith_ex :
  PyStr.endswith "_alt" "agm_date_alt" = true /\
  PyStr.endswith "_alt" "alt" = false /\
  PyStr.drop_last 4 "agm_date_alt" = "agm_date".
Proof. repeat split. Qed.

Example split_ex :
  PyStr.split_char "," "a, b ,,c" = ["a"; " b "; ""; "c"] /\
  PyStr.split_ws " 2023-01-01  10:00 " = ["2023-01-01"; "10:00"] /\
  PyStr.split_ws "  " = [].
Proof. repeat split. Qed.

Example sub_index_suffix_ex :
  Re.sub_index_suffix "CIN_C[0]" = "CIN_C" /\
  Re.sub_index_suffix "a[1][22]" = "a[1]" /\
  Re.sub_index_suffix "a[1]b" = "a[1]b" /\
  Re.sub_index_suffix "a[]" = "a[]".
Proof. repeat split. Qed.

Example search_literal_i_ex :
  Re.search_literal_i "section 139" "under Section 139 of the Act" = true /\
  Re.search_literal_i "section 140" "under Section 139 of the Act" = false.
Proof. repeat split. Qed.

Example search_agm_ex :
  Re.search_agm "the Annual General Meeting held on 12/05/2023." =
    Some "12/05/2023" /\
  Re.search_agm "annual general meeting 1-2-20345" = Some "1-2-2034" /\
  Re.search_agm "annual general meeting 123/4/2000" = Some "23/4/2000" /\
  Re.search_agm "12/05/2023 annual general meeting" = None.
Proof. repeat split. Qed.

Example py_str_ex :
  Py.str (Py.VList [Py.VStr "a'b"; Py.VInt (-12); Py.VNone; Py.VBool true;
                    Py.VDict [("k", Py.VStr "v")]; Py.VInt 0]) =
  String "[" (String Py.dquote "a'b") +:+ String Py.dquote ", -12, None, True, {'k': 'v'}, 0]".
Proof. reflexivity. Qed.

(** ** Strings *)

Module PyStrFacts.
Import PyStr StrSpec.

Lemma app_nil_l (s : string) : "" +:+ s = s.
Proof. reflexivity. Qed.

Lemma app_cons (c : ascii) (a b : string) :
  String c a +:+ b = String c (a +:+ b).
Proof. reflexivity. Qed.

Lemma app_nil_r (s : string) : s +:+ "" = s.
Proof. induction s as [|c s IH]; simpl in *; congruence. Qed.

Lemma app_assoc (a b c : string) : (a +:+ b) +:+ c = a +:+ b +:+ c.
Proof. induction a as [|x a IH]; simpl in *; congruence. Qed.

Lemma app_length (a b : string) :
  String.length (a +:+ b) = (String.length a + String.length b)%nat.
Proof. induction a as [|x a IH]; simpl in *; congruence. Qed.

(** Cancellation of a common suffix. *)
Lemma app_inv_tail (a b c : string) : a +:+ c = b +:+ c -> a = b.
Proof.
  revert b. induction a as [|x a IH]; intros [|y b] H; simpl in *.
  - reflexivity.
  - apply (f_equal String.length) in H. simpl in H.
    rewrite app_length in H. lia.
  - apply (f_equal String.length) in H. simpl in H.
    rewrite app_length in H. lia.
  - injection H as -> H. f_equal. auto.
Qed.

Lemma lower_app (a b : string) : lower (a +:+ b) = lower a +:+ lower b.
Proof. induction a as [|x a IH]; simpl in *; congruence. Qed.

Lemma strip_prefix_spec (p s r : string) :
  strip_prefix p s = Some r <-> s = p +:+ r.
Proof.
  revert s. induction p as [|a p IH]; intros s; simpl.
  - split; congruence.
  - destruct s as [|c s]; [split; discriminate|].
    destruct (Ascii.eqb_spec a c) as [->|Hne].
    + rewrite IH. split; congruence.
    + split; [discriminate|]. intros H. injection H as H _. congruence.
Qed.

Lemma startswith_app (p r : string) : startswith p (p +:+ r) = true.
Proof.
  unfold startswith.
  destruct (strip_prefix p (p +:+ r)) eqn:E; [reflexivity|].
  assert (H : strip_prefix p (p +:+ r) = Some r)
    by (apply strip_prefix_spec; reflexivity).
  congruence.
Qed.

Lemma contains_unfold (p s : string) :
  contains p s =
  startswith p s ||
  match s with EmptyString => false | String _ r => contains p r end.
Proof. destruct s; reflexivity. Qed.

Lemma endswith_unfold (suf s : string) :
  endswith suf s =
  String.eqb s suf ||
  match s with EmptyString => false | String _ r => endswith suf r end.
Proof. destruct s; reflexivity. Qed.

(** [p in s] holds exactly when [s] splits around a copy of [p]. *)
Lemma contains_spec (p s : string) :
  contains p s = true <-> exists a b, s = a +:+ p +:+ b.
Proof.
  split.
  - induction s as [|c s IH]; simpl; unfold startswith.
    + destruct (strip_prefix p "") as [r|] eqn:E; [|discriminate].
      intros _. apply strip_prefix_spec in E. exists "", r. exact E.
    + destruct (strip_prefix p (String c s)) as [r|] eqn:E; simpl.
      * intros _. apply strip_prefix_spec in E. exists "", r. exact E.
      * intros H. destruct (IH H) as (a & b & ->).
        exists (String c a), b. reflexivity.
  - intros (a & b & ->). induction a as [|c a IH]; simpl.
    + rewrite contains_unfold, startswith_app. reflexivity.
    + rewrite IH. apply orb_true_r.
Qed.

Lemma contains_app_l (p a b : string) :
  contains p a = true -> contains p (a +:+ b) = true.
Proof.
  rewrite !contains_spec. intros (x & y & ->).
  exists x, (y +:+ b). rewrite !app_assoc. reflexivity.
Qed.

Lemma endswith_spec (suf s : string) :
  endswith suf s = true <-> exists a, s = a +:+ suf.
Proof.
  split.
  - induction s as [|c s IH]; rewrite endswith_unfold; intros H;
      apply orb_prop in H; destruct H as [H|H];
      try (apply String.eqb_eq in H; exists ""; exact H).
    + discriminate.
    + destruct (IH H) as (a & ->). exists (String c a). reflexivity.
  - intros (a & ->). induction a as [|c a IH]; simpl.
    + rewrite endswith_unfold, String.eqb_refl. reflexivity.
    + rewrite IH. apply orb_true_r.
Qed.

Lemma substring_0_app (a b : string) :
  String.substring 0 (String.length a) (a +:+ b) = a.
Proof.
  induction a as [|c a IH]; simpl.
  - destruct b; reflexivity.
  - congruence.
Qed.

Lemma drop_last_app (a suf : string) :
  drop_last (String.length suf) (a +:+ suf) = a.
Proof.
  unfold drop_last. rewrite app_length.
  replace (String.length a + String.length suf - String.length suf)%nat
    with (String.length a) by lia.
  apply substring_0_app.
Qed.

(** A key with the [_alt] suffix is its base followed by the suffix. *)
Lemma endswith_alt (k : string) :
  endswith "_alt" k = true -> k = drop_last 4 k +:+ "_alt".
Proof.
  intros H. apply endswith_spec in H. destruct H as (a & ->).
  pose proof (drop_last_app a "_alt") as E. cbn [String.length] in E.
  rewrite E. reflexivity.
Qed.

Lemma endswith_app (a suf : string) : endswith suf (a +:+ suf) = true.
Proof. apply endswith_spec. exists a. reflexivity. Qed.

Lemma endswith_alt_alt (k : string) :
  endswith "_alt" k = true -> endswith "_alt_alt" (k +:+ "_alt") = true.
Proof.
  intros H. apply endswith_spec in H. destruct H as (a & ->).
  rewrite app_assoc. apply endswith_app.
Qed.

Lemma lstrip_all_space (s : string) : all_space (lstrip s) = all_space s.
Proof.
  induction s as [|c s IH]; simpl; [reflexivity|].
  destruct (isspace c) eqn:E; simpl; [exact IH|].
  rewrite E. reflexivity.
Qed.

Lemma rstrip_all_space (s : string) : all_space (rstrip s) = all_space s.
Proof.
  induction s as [|c s IH]; simpl; [reflexivity|].
  rewrite <- IH. destruct (rstrip s) as [|d r].
  - destruct (isspace c) eqn:Ec; simpl; rewrite ?Ec; reflexivity.
  - reflexivity.
Qed.

Lemma rstrip_empty (s : string) : rstrip s = "" <-> all_space s = true.
Proof.
  split.
  - intros H. rewrite <- rstrip_all_space, H. reflexivity.
  - induction s as [|c s IH]; simpl; [reflexivity|].
    intros H. apply andb_prop in H. destruct H as [Hc Hs].
    rewrite (IH Hs), Hc. reflexivity.
Qed.

(** [s.strip()] is empty exactly for the whitespace-only strings. *)
Lemma strip_empty (s : string) : strip s = "" <-> all_space s = true.
Proof. unfold strip. rewrite rstrip_empty, lstrip_all_space. tauto. Qed.

Lemma strip_all_space (s : string) : all_space (strip s) = all_space s.
Proof. unfold strip. rewrite rstrip_all_space. apply lstrip_all_space. Qed.

Lemma truthy_false (s : string) : truthy s = false <-> s = "".
Proof. destruct s; simpl; split; congruence. Qed.

Lemma truthy_true (s : string) : truthy s = true <-> s <> "".
Proof. destruct s; simpl; split; congruence. Qed.

End PyStrFacts.

(** ** Regular expressions *)

Module ReFacts.
Import PyStr StrSpec PyStrFacts Re ReSpec.

Lemma lower_empty (m : string) : lower m = "" -> m = "".
Proof. destruct m; simpl; congruence. Qed.

Lemma match_literal_i_spec (p s r : string) :
  match_literal_i p s = Some r <->
  exists m, s = m +:+ r /\ lower m = lower p.
Proof.
  revert s. induction p as [|a p IH]; intros s; simpl.
  - split.
    + intros [= ->]. exists "". split; reflexivity.
    + intros (m & -> & H). apply lower_empty in H. subst m. reflexivity.
  - destruct s as [|c s].
    + split; [discriminate|]. intros ([|x m] & H1 & H2); discriminate.
    + destruct (Ascii.eqb_spec (lower_char c) (lower_char a)) as [E|E].
      * rewrite IH. split.
        -- intros (m & -> & H). exists (String c m). simpl.
           split; congruence.
        -- intros ([|x m] & H1 & H2); [discriminate|]. simpl in *.
           injection H1 as -> ->. injection H2 as _ H2. eauto.
      * split; [discriminate|].
        intros ([|x m] & H1 & H2); [discriminate|]. simpl in *.
        injection H1 as -> ->. injection H2 as H2 _. contradiction.
Qed.

Lemma search_literal_i_unfold (p s : string) :
  search_literal_i p s =
  match match_literal_i p s with
  | Some _ => true
  | None =>
      match s with
      | EmptyString => false
      | String _ r => search_literal_i p r
      end
  end.
Proof. destruct s; reflexivity. Qed.

(** [re.search] with a literal pattern and [re.IGNORECASE] finds the
    pattern exactly in the texts that mention it. *)
Lemma search_literal_i_spec (p s : string) :
  search_literal_i p s = true <-> Mentions p s.
Proof.
  split.
  - induction s as [|c s IH]; rewrite search_literal_i_unfold.
    + destruct (match_literal_i p "") as [r|] eqn:E; [|discriminate].
      intros _. apply match_literal_i_spec in E. destruct E as (m & E & H).
      exists "", m, r. auto.
    + destruct (match_literal_i p (String c s)) as [r|] eqn:E.
      * intros _. apply match_literal_i_spec in E.
        destruct E as (m & E & H). exists "", m, r. auto.
      * intros H. destruct (IH H) as (a & m & b & -> & Hm).
        exists (String c a), m, b. auto.
  - intros (a & m & b & -> & Hm). induction a as [|c a IH].
    + rewrite search_literal_i_unfold.
      assert (E : match_literal_i p (m +:+ b) = Some b)
        by (apply match_literal_i_spec; eauto).
      simpl. rewrite E. reflexivity.
    + rewrite search_literal_i_unfold. simpl.
      rewrite IH. destruct (match_literal_i p _); reflexivity.
Qed.

Lemma search_literal_i_false (p s : string) :
  search_literal_i p s = false <-> ~ Mentions p s.
Proof.
  rewrite <- search_literal_i_spec.
  destruct (search_literal_i p s); split; congruence.
Qed.

(** *** The date token *)

Lemma first_some_Some {A B : Type} (f : A -> option B) (l : list A) (y : B) :
  first_some f l = Some y -> exists x, In x l /\ f x = Some y.
Proof.
  induction l as [|x l IH]; simpl; [discriminate|].
  destruct (f x) as [z|] eqn:E.
  - intros [= ->]. eauto.
  - intros H. destruct (IH H) as (x' & Hin & Hx'). eauto.
Qed.

Lemma first_some_is_Some {A B : Type} (f : A -> option B) (l : list A)
    (x : A) :
  In x l -> is_Some (f x) -> is_Some (first_some f l).
Proof.
  induction l as [|x' l IH]; simpl; [tauto|].
  intros [->|Hin] Hx.
  - destruct Hx as [y ->]. eauto.
  - destruct (f x'); eauto.
Qed.

Lemma digits_1_2_sound (s d r : string) :
  In (d, r) (digits_1_2 s) ->
  s = d +:+ r /\ all_digits d = true /\
  (String.length d = 1 \/ String.length d = 2)%nat.
Proof.
  unfold digits_1_2. destruct s as [|a s]; [intros []|].
  destruct (isdigit a) eqn:Ea; [|intros []].
  destruct s as [|b s].
  - intros [[= <- <-]|[]]. simpl. rewrite Ea. auto.
  - destruct (isdigit b) eqn:Eb.
    + intros [[= <- <-]|[[= <- <-]|[]]]; simpl; rewrite ?Ea, ?Eb; auto.
    + intros [[= <- <-]|[]]. simpl. rewrite Ea. auto.
Qed.

Lemma digits_1_2_complete (d r : string) :
  all_digits d = true ->
  (String.length d = 1 \/ String.length d = 2)%nat ->
  In (d, r) (digits_1_2 (d +:+ r)).
Proof.
  intros Hd Hlen. destruct d as [|a [|b [|c d]]]; simpl in *;
    try (destruct Hlen; discriminate).
  - rewrite andb_true_r in Hd. rewrite Hd.
    destruct r as [|x r]; [left; reflexivity|].
    destruct (isdigit x); simpl; auto.
  - apply andb_prop in Hd. destruct Hd as [Ha Hb].
    rewrite andb_true_r in Hb. rewrite Ha, Hb. left. reflexivity.
Qed.

Lemma date_sep_spec (s r : string) (c : ascii) :
  date_sep s = Some (c, r) <-> s = String c r /\ is_date_sep c = true.
Proof.
  unfold date_sep, is_date_sep. destruct s as [|x s].
  - split; [discriminate|]. intros [[=] _].
  - destruct (_ || _) eqn:E; split.
    + intros [= -> ->]. auto.
    + intros [[= -> ->] _]. reflexivity.
    + discriminate.
    + intros [[= -> ->] H]. congruence.
Qed.

Lemma digits_4_sound (s y r : string) :
  digits_4 s = Some (y, r) ->
  s = y +:+ r /\ all_digits y = true /\ String.length y = 4%nat.
Proof.
  unfold digits_4. destruct s as [|a [|b [|c [|d s]]]]; try discriminate.
  destruct (isdigit a) eqn:Ea, (isdigit b) eqn:Eb, (isdigit c) eqn:Ec,
    (isdigit d) eqn:Ed; try discriminate.
  intros [= <- <-]. simpl. rewrite Ea, Eb, Ec, Ed. auto.
Qed.

Lemma digits_4_complete (y r : string) :
  all_digits y = true -> String.length y = 4%nat ->
  digits_4 (y +:+ r) = Some (y, r).
Proof.
  intros Hy Hlen.
  destruct y as [|a [|b [|c [|d [|e y]]]]]; try discriminate.
  simpl in *.
  destruct (isdigit a), (isdigit b), (isdigit c), (isdigit d);
    try discriminate.
  reflexivity.
Qed.

(** The date group captures a date token that starts the text. *)
Lemma match_date_sound (s d : string) :
  match_date s = Some d -> DateToken d /\ exists r, s = d +:+ r.
Proof.
  unfold match_date. intros H.
  apply first_some_Some in H. destruct H as ([d1 r1] & Hin1 & H).
  apply digits_1_2_sound in Hin1. destruct Hin1 as (-> & Hd1 & Hl1).
  destruct (date_sep r1) as [[s1 r2]|] eqn:E1; [|discriminate].
  apply date_sep_spec in E1. destruct E1 as [-> Hs1].
  apply first_some_Some in H. destruct H as ([d2 r3] & Hin2 & H).
  apply digits_1_2_sound in Hin2. destruct Hin2 as (-> & Hd2 & Hl2).
  destruct (date_sep r3) as [[s2 r4]|] eqn:E2; [|discriminate].
  apply date_sep_spec in E2. destruct E2 as [-> Hs2].
  destruct (digits_4 r4) as [[y r]|] eqn:E3; [|discriminate].
  apply digits_4_sound in E3. destruct E3 as (-> & Hy & Hly).
  injection H as <-. split.
  - exists d1, s1, d2, s2, y. repeat split; assumption.
  - exists r. rewrite !app_assoc. simpl. rewrite !app_assoc. reflexivity.
Qed.

(** Where a date token starts the text, the date group matches. *)
Lemma match_date_complete (d r : string) :
  DateToken d -> is_Some (match_date (d +:+ r)).
Proof.
  intros (d1 & s1 & d2 & s2 & y & -> & Hd1 & Hl1 & Hs1 & Hd2 & Hl2 & Hs2
          & Hy & Hly).
  unfold match_date.
  apply first_some_is_Some
    with (x := (d1, String s1 (d2 +:+ String s2 (y +:+ r)))).
  { replace ((d1 +:+ String s1 (d2 +:+ String s2 y)) +:+ r)
      with (d1 +:+ String s1 (d2 +:+ String s2 (y +:+ r)))
      by (rewrite !app_assoc; simpl; rewrite !app_assoc; reflexivity).
    apply digits_1_2_complete; assumption. }
  assert (E1 : date_sep (String s1 (d2 +:+ String s2 (y +:+ r)))
               = Some (s1, d2 +:+ String s2 (y +:+ r)))
    by (apply date_sep_spec; auto).
  rewrite E1.
  apply first_some_is_Some with (x := (d2, String s2 (y +:+ r))).
  { apply digits_1_2_complete; assumption. }
  assert (E2 : date_sep (String s2 (y +:+ r)) = Some (s2, y +:+ r))
    by (apply date_sep_spec; auto).
  rewrite E2, (digits_4_complete y r Hy Hly). eauto.
Qed.

Lemma lazy_dot_then_date_unfold (s : string) :
  lazy_dot_then_date s =
  match match_date s with
  | Some d => Some d
  | None =>
      match s with
      | EmptyString => None
      | String c r => if Ascii.eqb c LF then None else lazy_dot_then_date r
      end
  end.
Proof. destruct s; reflexivity. Qed.

Lemma lazy_dot_then_date_sound (s d : string) :
  lazy_dot_then_date s = Some d ->
  DateToken d /\
  exists mid post, s = mid +:+ d +:+ post /\ one_line mid = true.
Proof.
  induction s as [|c s IH]; rewrite lazy_dot_then_date_unfold.
  - destruct (match_date "") as [d'|] eqn:E; [|discriminate].
    intros [= ->]. apply match_date_sound in E. destruct E as (Hd & r & E).
    split; [exact Hd|]. exists "", r. auto.
  - destruct (match_date (String c s)) as [d'|] eqn:E.
    + intros [= ->]. apply match_date_sound in E.
      destruct E as (Hd & r & E). split; [exact Hd|]. exists "", r. auto.
    + destruct (Ascii.eqb c LF) eqn:Ec; [discriminate|].
      intros H. destruct (IH H) as (Hd & mid & post & -> & Hmid).
      split; [exact Hd|]. exists (String c mid), post. simpl.
      rewrite Ec, Hmid. auto.
Qed.

Lemma lazy_dot_then_date_complete (mid d post : string) :
  one_line mid = true -> DateToken d ->
  is_Some (lazy_dot_then_date (mid +:+ d +:+ post)).
Proof.
  intros Hmid Hd. induction mid as [|c mid IH];
    rewrite lazy_dot_then_date_unfold.
  - simpl. destruct (match_date_complete d post Hd) as [d' ->]. eauto.
  - simpl in *. apply andb_prop in Hmid. destruct Hmid as [Hc Hmid].
    destruct (match_date _); [eauto|].
    destruct (Ascii.eqb c LF); [discriminate|]. auto.
Qed.

Lemma search_agm_unfold (s : string) :
  search_agm s =
  match match_agm s with
  | Some d => Some d
  | None =>
      match s with
      | EmptyString => None
      | String _ r => search_agm r
      end
  end.
Proof. destruct s; reflexivity. Qed.

Lemma match_agm_sound (s d : string) :
  match_agm s = Some d -> AgmOccurs same_line s d.
Proof.
  unfold match_agm.
  destruct (match_literal_i agm_phrase s) as [r|] eqn:E; [|discriminate].
  apply match_literal_i_spec in E. destruct E as (ph & -> & Hph).
  intros H. apply lazy_dot_then_date_sound in H.
  destruct H as (Hd & mid & post & -> & Hmid).
  exists "", ph, mid, post. repeat split; assumption.
Qed.

Lemma search_agm_sound (s d : string) :
  search_agm s = Some d -> AgmOccurs same_line s d.
Proof.
  induction s as [|c s IH]; rewrite search_agm_unfold.
  - destruct (match_agm "") eqn:E; [|discriminate].
    intros [= ->]. apply match_agm_sound. exact E.
  - destruct (match_agm (String c s)) eqn:E.
    + intros [= ->]. apply match_agm_sound. exact E.
    + intros H. destruct (IH H) as (pre & ph & mid & post & -> & Hrest).
      exists (String c pre), ph, mid, post. split; [reflexivity|exact Hrest].
Qed.

Lemma search_agm_complete (s d : string) :
  AgmOccurs same_line s d -> is_Some (search_agm s).
Proof.
  intros (pre & ph & mid & post & -> & Hph & Hmid & Hd).
  induction pre as [|c pre IH]; rewrite search_agm_unfold.
  - simpl. unfold match_agm.
    assert (E : match_literal_i agm_phrase (ph +:+ mid +:+ d +:+ post)
                = Some (mid +:+ d +:+ post))
      by (apply match_literal_i_spec; exists ph; auto).
    rewrite E.
    destruct (lazy_dot_then_date_complete mid d post Hmid Hd) as [d' ->].
    eauto.
  - simpl. destruct (match_agm _); [eauto|]. exact IH.
Qed.

(** *** Which date token is captured *)

Lemma is_date_sep_not_digit (c : ascii) :
  is_date_sep c = true -> isdigit c = false.
Proof.
  unfold is_date_sep. intros H. apply orb_prop in H.
  destruct H as [H|H]; apply Ascii.eqb_eq in H; subst c; reflexivity.
Qed.

(** Before a character that is not a digit, [\d{1,2}] first takes all
    the digits there are. *)
Lemma digits_1_2_head (d r : string) (c : ascii) :
  all_digits d = true ->
  (String.length d = 1 \/ String.length d = 2)%nat ->
  isdigit c = false ->
  exists l, digits_1_2 (d +:+ String c r) = (d, String c r) :: l.
Proof.
  intros Hd Hlen Hc. destruct d as [|a [|b [|x d]]]; simpl in *;
    try (destruct Hlen; discriminate).
  - rewrite andb_true_r in Hd. rewrite Hd, Hc. eauto.
  - apply andb_prop in Hd. destruct Hd as [Ha Hb].
    rewrite andb_true_r in Hb. rewrite Ha, Hb. eauto.
Qed.

(** Where a date token starts the text, the date group captures that
    very token. *)
Lemma match_date_exact (d r : string) :
  DateToken d -> match_date (d +:+ r) = Some d.
Proof.
  intros (d1 & s1 & d2 & s2 & y & -> & Hd1 & Hl1 & Hs1 & Hd2 & Hl2 & Hs2
          & Hy & Hly).
  unfold match_date.
  replace ((d1 +:+ String s1 (d2 +:+ String s2 y)) +:+ r)
    with (d1 +:+ String s1 (d2 +:+ String s2 (y +:+ r)))
    by (rewrite !app_assoc; simpl; rewrite !app_assoc; reflexivity).
  destruct (digits_1_2_head d1 (d2 +:+ String s2 (y +:+ r)) s1 Hd1 Hl1
              (is_date_sep_not_digit s1 Hs1)) as [l1 ->].
  cbn [first_some].
  assert (E1 : date_sep (String s1 (d2 +:+ String s2 (y +:+ r)))
               = Some (s1, d2 +:+ String s2 (y +:+ r)))
    by (apply date_sep_spec; auto).
  rewrite E1.
  destruct (digits_1_2_head d2 (y +:+ r) s2 Hd2 Hl2
              (is_date_sep_not_digit s2 Hs2)) as [l2 ->].
  cbn [first_some].
  assert (E2 : date_sep (String s2 (y +:+ r)) = Some (s2, y +:+ r))
    by (apply date_sep_spec; auto).
  rewrite E2, (digits_4_complete y r Hy Hly). reflexivity.
Qed.

(** At one position of a text at most one date token starts. *)
Lemma DateToken_prefix_unique (d d' r r' : string) :
  DateToken d -> DateToken d' -> d +:+ r = d' +:+ r' -> d = d'.
Proof.
  intros Hd Hd' E. pose proof (match_date_exact d r Hd) as H.
  rewrite E, (match_date_exact d' r' Hd') in H. congruence.
Qed.

Lemma NoDateIn_nil (rest : string) : NoDateIn "" rest.
Proof.
  intros m1 m2 d r E Hne. destruct m1, m2; try discriminate. congruence.
Qed.

Lemma NoDateIn_cons (c : ascii) (mid rest : string) :
  NoDateIn (String c mid) rest <->
  match_date (String c (mid +:+ rest)) = None /\ NoDateIn mid rest.
Proof.
  split.
  - intros H. split.
    + destruct (match_date _) as [d|] eqn:E; [|reflexivity].
      apply match_date_sound in E. destruct E as (Hd & r & E).
      destruct (H "" (String c mid) d r eq_refl ltac:(discriminate) E Hd).
    + intros m1 m2 d r -> Hne E.
      exact (H (String c m1) m2 d r eq_refl Hne E).
  - intros [Hc H] m1 m2 d r E Hne E' Hd. destruct m1 as [|x m1].
    + simpl in E. subst m2. simpl in E'.
      rewrite E', (match_date_exact d r Hd) in Hc. discriminate.
    + simpl in E. injection E as -> ->. exact (H m1 m2 d r eq_refl Hne E' Hd).
Qed.

(** [.*?] stops at the first position where the date group matches. *)
Lemma lazy_dot_then_date_first (s d : string) :
  lazy_dot_then_date s = Some d <->
  exists mid post,
    s = mid +:+ d +:+ post /\ one_line mid = true /\ DateToken d /\
    NoDateIn mid (d +:+ post).
Proof.
  split.
  - revert d. induction s as [|c s IH]; intros d;
      rewrite lazy_dot_then_date_unfold.
    + destruct (match_date "") as [d'|] eqn:E; [|discriminate].
      intros [= ->]. apply match_date_sound in E. destruct E as (Hd & r & E).
      exists "", r. auto using NoDateIn_nil.
    + destruct (match_date (String c s)) as [d'|] eqn:E.
      * intros [= ->]. apply match_date_sound in E.
        destruct E as (Hd & r & E). exists "", r. auto using NoDateIn_nil.
      * destruct (Ascii.eqb c LF) eqn:Ec; [discriminate|].
        intros H. destruct (IH d H) as (mid & post & -> & Hmid & Hd & Hno).
        exists (String c mid), post. simpl. rewrite Ec, Hmid.
        repeat split; try assumption.
        apply NoDateIn_cons. split; assumption.
  - intros (mid & post & -> & Hmid & Hd & Hno).
    induction mid as [|c mid IH]; rewrite lazy_dot_then_date_unfold.
    + simpl. rewrite (match_date_exact d post Hd). reflexivity.
    + apply NoDateIn_cons in Hno. destruct Hno as [Hc Hno].
      simpl in *. rewrite Hc.
      apply andb_prop in Hmid. destruct Hmid as [Hlf Hmid].
      destruct (Ascii.eqb c LF); [discriminate|]. auto.
Qed.

Lemma match_agm_AgmAt (s : string) : is_Some (match_agm s) <-> AgmAt s.
Proof.
  unfold match_agm. split.
  - intros [d H].
    destruct (match_literal_i agm_phrase s) as [r|] eqn:E; [|discriminate].
    apply match_literal_i_spec in E. destruct E as (ph & -> & Hph).
    apply lazy_dot_then_date_sound in H.
    destruct H as (Hd & mid & post & -> & Hmid).
    exists ph, mid, d, post. auto.
  - intros (ph & mid & d & post & -> & Hph & Hmid & Hd).
    assert (E : match_literal_i agm_phrase (ph +:+ mid +:+ d +:+ post)
                = Some (mid +:+ d +:+ post))
      by (apply match_literal_i_spec; exists ph; auto).
    rewrite E. apply lazy_dot_then_date_complete; assumption.
Qed.

Lemma NoAgmIn_nil (rest : string) : NoAgmIn "" rest.
Proof. intros p1 p2 E Hne. destruct p1, p2; try discriminate. congruence. Qed.

Lemma NoAgmIn_cons (c : ascii) (pre rest : string) :
  NoAgmIn (String c pre) rest <->
  match_agm (String c (pre +:+ rest)) = None /\ NoAgmIn pre rest.
Proof.
  split.
  - intros H. split.
    + destruct (match_agm _) as [d|] eqn:E; [|reflexivity].
      destruct (H "" (String c pre) eq_refl ltac:(discriminate)).
      apply match_agm_AgmAt. simpl. eauto.
    + intros p1 p2 -> Hne. exact (H (String c p1) p2 eq_refl Hne).
  - intros [Hc H] p1 p2 E Hne Hat. destruct p1 as [|x p1].
    + simpl in E. subst p2. apply match_agm_AgmAt in Hat. simpl in Hat.
      rewrite Hc in Hat. destruct Hat as [? [=]].
    + simpl in E. injection E as -> ->. exact (H p1 p2 eq_refl Hne Hat).
Qed.

(** [re.search] reports the leftmost match, and in it the first date. *)
Lemma search_agm_first (s d : string) : search_agm s = Some d <-> FirstAgm s d.
Proof.
  split.
  - revert d.
    assert (M : forall t d, match_agm t = Some d -> FirstAgm t d).
    { intros t d. unfold match_agm.
      destruct (match_literal_i agm_phrase t) as [r|] eqn:E; [|discriminate].
      apply match_literal_i_spec in E. destruct E as (ph & -> & Hph).
      intros H. apply lazy_dot_then_date_first in H.
      destruct H as (mid & post & -> & Hmid & Hd & Hno).
      exists "", ph, mid, post. auto 10 using NoAgmIn_nil. }
    induction s as [|c s IH]; intros d; rewrite search_agm_unfold.
    + destruct (match_agm "") eqn:E; [|discriminate].
      intros [= ->]. apply M. exact E.
    + destruct (match_agm (String c s)) eqn:E.
      * intros [= ->]. apply M. exact E.
      * intros H.
        destruct (IH d H)
          as (pre & ph & mid & post & -> & Hph & Hmid & Hd & Hno & Hpre).
        exists (String c pre), ph, mid, post.
        repeat split; try assumption.
        apply NoAgmIn_cons. split; assumption.
  - intros (pre & ph & mid & post & -> & Hph & Hmid & Hd & Hno & Hpre).
    induction pre as [|c pre IH]; rewrite search_agm_unfold.
    + simpl. unfold match_agm.
      assert (E : match_literal_i agm_phrase (ph +:+ mid +:+ d +:+ post)
                  = Some (mid +:+ d +:+ post))
        by (apply match_literal_i_spec; exists ph; auto).
      rewrite E.
      assert (L : lazy_dot_then_date (mid +:+ d +:+ post) = Some d)
        by (apply lazy_dot_then_date_first; eauto 10).
      rewrite L. reflexivity.
    + apply NoAgmIn_cons in Hpre. destruct Hpre as [Hc Hpre].
      simpl. rewrite Hc. auto.
Qed.

(** The first AGM mention is an AGM mention. *)
Lemma FirstAgm_AgmOccurs (s d : string) :
  FirstAgm s d -> AgmOccurs same_line s d.
Proof.
  intros (pre & ph & mid & post & E & Hph & Hmid & Hd & _).
  exists pre, ph, mid, post. auto.
Qed.

(** *** A phrase at the head of a text lies within any long enough
    prefix *)

Lemma lower_length (s : string) : String.length (lower s) = String.length s.
Proof. induction s as [|c s IH]; simpl; congruence. Qed.

Lemma app_prefix (a b m r : string) :
  a +:+ b = m +:+ r -> (String.length m <= String.length a)%nat ->
  exists a', a = m +:+ a'.
Proof.
  revert a. induction m as [|x m IH]; intros a E Hlen.
  - exists a. reflexivity.
  - destruct a as [|c a]; simpl in *; [lia|].
    injection E as -> E. destruct (IH a E ltac:(lia)) as [a' ->]. eauto.
Qed.

End ReFacts.

(** ** Dictionaries *)

Lemma dict_of_items_lookup {V : Type} (l : list (string * V)) (k : string)
    (v : V) :
  dict_of_items l !! k = Some v -> In (k, v) l.
Proof.
  unfold dict_of_items.
  assert (G : forall (d : gmap string V),
             foldl (fun d kv => <[kv.1 := kv.2]> d) d l !! k = Some v ->
             d !! k = Some v \/ In (k, v) l).
  { induction l as [|[k' v'] l IH]; intros d H; simpl in *; [auto|].
    destruct (IH _ H) as [H'|H']; [|auto].
    destruct (decide (k' = k)) as [->|Hne].
    - rewrite lookup_insert_eq in H'. injection H' as ->. auto.
    - rewrite lookup_insert_ne in H' by exact Hne. auto. }
  intros H. destruct (G ∅ H) as [H'|H']; [|exact H'].
  rewrite lookup_empty in H'. discriminate.
Qed.

Lemma dict_keys_In {V : Type} (d : gmap string V) (k : string) :
  In k (dict_keys d) <-> is_Some (d !! k).
Proof.
  unfold dict_keys. rewrite <- list_elem_of_In, list_elem_of_fmap. split.
  - intros ([k' v] & -> & H). apply elem_of_map_to_list in H. eauto.
  - intros [v H]. exists (k, v). split; [reflexivity|].
    apply elem_of_map_to_list. exact H.
Qed.

Lemma dict_keys_forallb {V : Type} (d : gmap string V) (f : string -> bool) :
  forallb f (dict_keys d) = true -> forall k, is_Some (d !! k) -> f k = true.
Proof.
  intros H k Hk. rewrite forallb_forall in H. apply H.
  apply dict_keys_In. exact Hk.
Qed.

(** ** The field mapper and the consolidator *)

Module ExtractorFacts.
Import PyStr StrSpec PyStrFacts Extractor ExtractorSpec.

Lemma clean_and_map_step_lookup (self : t) (acc : gmap string string)
    (item : string * option string) (k v : string) :
  clean_and_map_step self acc item !! k = Some v ->
  acc !! k = Some v \/ maps_to self item k v.
Proof.
  destruct item as [field_name [value|]]; simpl; [|auto].
  destruct (truthy value) eqn:Ev; simpl; [|auto].
  destruct (truthy (strip value)) eqn:Es; simpl; [|auto].
  destruct (is_system_field (Re.sub_index_suffix field_name)) eqn:Eb; [auto|].
  set (name := default _ _).
  destruct (decide (name = k)) as [<-|Hne].
  - rewrite lookup_insert_eq. intros [= <-]. right. exists value.
    apply truthy_true in Es. simpl. auto.
  - rewrite lookup_insert_ne by exact Hne. auto.
Qed.

Lemma clean_and_map_origin (self : t)
    (form_fields : list (string * option string)) (k v : string) :
  clean_and_map_form_fields self form_fields !! k = Some v ->
  exists item, In item form_fields /\ maps_to self item k v.
Proof.
  unfold clean_and_map_form_fields.
  assert (G : forall acc,
             foldl (clean_and_map_step self) acc form_fields !! k = Some v ->
             acc !! k = Some v \/
             exists item, In item form_fields /\ maps_to self item k v).
  { induction form_fields as [|item l IH]; intros acc H; simpl in *; [auto|].
    destruct (IH _ H) as [H'|(item' & Hin & Hm)].
    - apply clean_and_map_step_lookup in H'. destruct H' as [H'|H']; eauto.
    - eauto. }
  intros H. destruct (G ∅ H) as [H'|H']; [|exact H'].
  rewrite lookup_empty in H'. discriminate.
Qed.

Lemma init_table_clean (pdf_path : string) : table_clean (__init__ pdf_path).
Proof.
  intros k v H. apply dict_of_items_lookup in H.
  assert (F : forallb (fun kv => negb (is_system_field kv.2))
                      field_mapping_items = true) by reflexivity.
  rewrite forallb_forall in F. apply F in H. simpl in H.
  destruct (is_system_field v); [discriminate|reflexivity].
Qed.

Lemma maps_to_not_system (self : t) (item : string * option string)
    (k v : string) :
  table_clean self -> maps_to self item k v -> is_system_field k = false.
Proof.
  intros Ht (value & _ & _ & Hb & -> & _).
  destruct (field_mapping self !! _) as [canon|] eqn:E; simpl.
  - exact (Ht _ _ E).
  - exact Hb.
Qed.

Lemma is_system_field_false (name x : string) :
  is_system_field name = false -> In x blocklist ->
  contains x (lower name) = false.
Proof.
  unfold is_system_field. intros H Hin.
  destruct (contains x (lower name)) eqn:E; [|reflexivity].
  assert (existsb (fun x => contains x (lower name)) blocklist = true)
    by (apply existsb_exists; eauto).
  congruence.
Qed.

(** What the first loop of the consolidator leaves in its two dicts. *)
Lemma split_alt_fold (m : gmap string string) :
  let st := map_fold split_alt_step (∅, ∅) m in
  (forall k, st.1 !! k = if endswith "_alt" k then None else m !! k) /\
  (forall b, st.2 !! b = m !! (b +:+ "_alt")).
Proof.
  apply (map_fold_weak_ind
    (fun (st : gmap string string * gmap string string) m =>
       (forall k, st.1 !! k = if endswith "_alt" k then None else m !! k) /\
       (forall b, st.2 !! b = m !! (b +:+ "_alt")))).
  - simpl. split; intros; rewrite !lookup_empty; [|reflexivity].
    destruct (endswith _ _); reflexivity.
  - intros i x m' [cons alts] Hi [Hc Ha]. simpl in *. unfold split_alt_step.
    destruct (endswith "_alt" i) eqn:E; simpl; split.
    + intros k. rewrite Hc. destruct (endswith "_alt" k) eqn:Ek; [reflexivity|].
      rewrite lookup_insert_ne by congruence. reflexivity.
    + intros b. destruct (decide (drop_last 4 i = b)) as [<-|Hne].
      * rewrite lookup_insert_eq, <- (endswith_alt i E), lookup_insert_eq.
        reflexivity.
      * rewrite lookup_insert_ne by exact Hne.
        rewrite lookup_insert_ne; [apply Ha|].
        intros ->. apply Hne. apply (drop_last_app b "_alt").
    + intros k. destruct (decide (i = k)) as [<-|Hne].
      * rewrite !lookup_insert_eq, E. reflexivity.
      * rewrite !lookup_insert_ne by exact Hne. apply Hc.
    + intros b. rewrite Ha. rewrite lookup_insert_ne; [reflexivity|].
      intros ->. rewrite endswith_app in E. discriminate.
Qed.

Lemma use_alt_fold (cons alts : gmap string string) (k : string) :
  map_fold use_alt_step cons alts !! k =
  match cons !! k with
  | Some v =>
      if truthy v then Some v
      else match alts !! k with Some a => Some a | None => Some v end
  | None => alts !! k
  end.
Proof.
  revert k.
  apply (map_fold_weak_ind
    (fun (r : gmap string string) alts =>
       forall k, r !! k =
         match cons !! k with
         | Some v =>
             if truthy v then Some v
             else match alts !! k with Some a => Some a | None => Some v end
         | None => alts !! k
         end)).
  - intros k. rewrite lookup_empty.
    destruct (cons !! k) as [v|]; [destruct (truthy v)|]; reflexivity.
  - intros i x alts' r Hi IH k. unfold use_alt_step.
    pose proof (IH i) as Hri. rewrite Hi in Hri.
    destruct (decide (i = k)) as [<-|Hne].
    + rewrite lookup_insert_eq.
      destruct (cons !! i) as [v|] eqn:Ec.
      * destruct (truthy v) eqn:Ev; rewrite Hri; simpl; rewrite Ev; simpl.
        -- exact Hri.
        -- apply lookup_insert_eq.
      * rewrite Hri. apply lookup_insert_eq.
    + rewrite (lookup_insert_ne alts') by exact Hne.
      destruct (r !! i) as [v|]; [destruct (truthy v); simpl|];
        rewrite ?lookup_insert_ne by exact Hne; apply IH.
Qed.

(** The consolidator, key by key. *)
Lemma consolidate_lookup (m : gmap string string) (k : string) :
  consolidate_duplicate_fields m !! k = consolidated_value m k.
Proof.
  unfold consolidate_duplicate_fields, consolidated_value.
  pose proof (split_alt_fold m) as H.
  destruct (map_fold split_alt_step (∅, ∅) m) as [cons alts].
  simpl in H. destruct H as [Hc Ha].
  rewrite use_alt_fold, Hc, Ha. reflexivity.
Qed.

End ExtractorFacts.

(** * The claims *)

Import PyStr StrSpec PyStrFacts ReSpec ReFacts ExtractorSpec ExtractorFacts.

(** ** Context inference *)

Lemma Mentions_contains (x name : string) :
  Mentions x name -> contains (lower x) (lower name) = true.
Proof.
  intros (a & m & b & -> & Hm). apply contains_spec.
  exists (lower a), (lower b). rewrite !lower_app, Hm. reflexivity.
Qed.

(** C4: [appointment_type] is the value of the first rule that matches,
    in the order "first appointment", "reappointment", "casual vacancy",
    and ['Unknown'] when none does.  So a text that mentions both "first
    appointment" and "reappointment" is a ['First Appointment'], and one
    that mentions "reappointment" but not "first appointment" is a
    ['Reappointment']. *)
Theorem appointment_type_priority (raw_text : string) :
  let ty :=
    Context.appointment_type (Extractor.extract_contextual_information raw_text)
  in
  (Mentions "first appointment" raw_text -> ty = Some "First Appointment") /\
  (~ Mentions "first appointment" raw_text ->
   Mentions "reappointment" raw_text -> ty = Some "Reappointment") /\
  (~ Mentions "first appointment" raw_text ->
   ~ Mentions "reappointment" raw_text ->
   Mentions "casual vacancy" raw_text -> ty = Some "Casual Vacancy") /\
  (~ Mentions "first appointment" raw_text ->
   ~ Mentions "reappointment" raw_text ->
   ~ Mentions "casual vacancy" raw_text -> ty = Some "Unknown") /\
  (Mentions "first appointment" raw_text ->
   Mentions "reappointment" raw_text -> ty = Some "First Appointment").
Proof.
  simpl. rewrite <- !search_literal_i_false, <- !search_literal_i_spec.
  destruct (Re.search_literal_i "first appointment" raw_text);
    destruct (Re.search_literal_i "reappointment" raw_text);
    destruct (Re.search_literal_i "casual vacancy" raw_text);
    repeat split; intros; simpl; congruence.
Qed.

Lemma appointment_type_priority_witness :
  let raw_text := "Reappointment (earlier: First appointment) of auditor" in
  Mentions "first appointment" raw_text /\
  Mentions "reappointment" raw_text /\
  Context.appointment_type (Extractor.extract_contextual_information raw_text)
  = Some "First Appointment".
Proof.
  intros raw_text.
  assert (H1 : Mentions "first appointment" raw_text)
    by (apply search_literal_i_spec; reflexivity).
  assert (H2 : Mentions "reappointment" raw_text)
    by (apply search_literal_i_spec; reflexivity).
  split; [exact H1|]. split; [exact H2|].
  exact (proj1 (appointment_type_priority raw_text) H1).
Defined.

(** A text with the phrase at its head only has the phrase within any
    prefix of at least the phrase's length. *)
Lemma no_phrase_NoAgmIn (pre head tail : string) :
  String.length head = 21%nat ->
  ~ Mentions Re.agm_phrase (pre +:+ head) ->
  NoAgmIn pre (head +:+ tail).
Proof.
  intros Hlen Hno p1 p2 -> Hne (ph & mid & d & post & E & Hph & _).
  apply Hno.
  assert (Hl : String.length ph = 22%nat)
    by (rewrite <- lower_length, Hph; reflexivity).
  rewrite <- app_assoc in E.
  destruct (app_prefix (p2 +:+ head) tail ph _ E) as [a' Ha'].
  { rewrite app_length, Hl, Hlen. destruct p2; [congruence|simpl; lia]. }
  exists p1, ph, a'. rewrite app_assoc, Ha'. split; [reflexivity|exact Hph].
Qed.

Lemma AgmOccurs_sentence (pre post : string) :
  AgmOccurs same_line
    (pre +:+ "Annual General Meeting held on 12/05/2023" +:+ post)
    "12/05/2023".
Proof.
  exists pre, "Annual General Meeting", " held on ", post.
  split; [reflexivity|]. split; [reflexivity|]. split; [reflexivity|].
  exists "12", "/"%char, "05", "/"%char, "2023". repeat split; auto.
Qed.

Lemma search_agm_sentence (pre post : string) :
  NoAgmIn pre ("Annual General Meeting held on 12/05/2023" +:+ post) ->
  Re.search_agm (pre +:+ "Annual General Meeting held on 12/05/2023" +:+ post)
  = Some "12/05/2023".
Proof.
  induction pre as [|c pre IH]; intros H.
  - reflexivity.
  - apply NoAgmIn_cons in H. destruct H as [Hc H].
    rewrite search_agm_unfold.
    change (String c pre +:+ ?x) with (String c (pre +:+ x)).
    rewrite Hc. exact (IH H).
Qed.

(** C8, as the claim states it, fails twice.  An arbitrary stretch
    between the phrase and the date is not enough, since [.] of the regex
    does not step over a newline: in the first text the phrase is followed
    by a date token on the next line, and no AGM is reported.  And a text
    that contains "Annual General Meeting held on 12/05/2023" need not
    give that date: in the second text an earlier mention comes first, and
    its date is the one reported. *)
Lemma agm_rule_newline_counterexample :
  (let raw_text :=
     "Annual General Meeting" +:+ String Re.LF "held on 12/05/2023" in
   let context := Extractor.extract_contextual_information raw_text in
   AgmOccurs (fun _ => True) raw_text "12/05/2023" /\
   Context.agm_conducted context = Some false /\
   Context.agm_date context = None) /\
  (let raw_text :=
     "The annual general meeting of 01/01/2000 was adjourned. "
     +:+ "Annual General Meeting held on 12/05/2023" +:+ "." in
   let context := Extractor.extract_contextual_information raw_text in
   Context.agm_conducted context = Some true /\
   Context.agm_date context = Some "01/01/2000").
Proof.
  split; [|split; reflexivity].
  split; [|split; reflexivity].
  exists "", "Annual General Meeting", (String Re.LF "held on "), "".
  split; [reflexivity|]. split; [reflexivity|]. split; [exact I|].
  exists "12", "/"%char, "05", "/"%char, "2023".
  repeat split; auto.
Qed.

(** C8, amended: [agm_conducted] is true exactly when the text has the
    phrase "annual general meeting" (case ignored) followed on the same
    line, after any stretch without a newline, by a date token (one or
    two digits, [/] or [-], one or two digits, [/] or [-], four digits).
    [agm_date] is then the token of the first such mention, as it stands
    in the text: the phrase is taken at the leftmost position where it is
    so followed, and the token at the first position after the phrase
    where a date token starts; no other token is reported.  Otherwise
    [agm_conducted] is false and [agm_date] is absent.  A text that
    contains "Annual General Meeting held on 12/05/2023" gives true; it
    gives the date "12/05/2023" when no mention starts before that
    sentence, in particular when the phrase does not occur earlier. *)
Theorem agm_rule (raw_text : string) :
  let context := Extractor.extract_contextual_information raw_text in
  (Context.agm_conducted context = Some true <->
   exists d, AgmOccurs same_line raw_text d) /\
  (forall d, Context.agm_date context = Some d <-> FirstAgm raw_text d) /\
  (forall d d', FirstAgm raw_text d -> FirstAgm raw_text d' -> d = d') /\
  (Context.agm_conducted context = Some true ->
   exists d, Context.agm_date context = Some d /\
             FirstAgm raw_text d /\ AgmOccurs same_line raw_text d) /\
  (Context.agm_conducted context <> Some true ->
   Context.agm_conducted context = Some false /\
   Context.agm_date context = None) /\
  (forall pre post,
     raw_text = pre +:+ "Annual General Meeting held on 12/05/2023" +:+ post ->
     Context.agm_conducted context = Some true /\
     (NoAgmIn pre ("Annual General Meeting held on 12/05/2023" +:+ post) ->
      Context.agm_date context = Some "12/05/2023") /\
     (~ Mentions "annual general meeting" (pre +:+ "Annual General Meetin") ->
      Context.agm_date context = Some "12/05/2023")).
Proof.
  cbn [Extractor.extract_contextual_information Context.agm_conducted
       Context.agm_date].
  split; [|split; [|split; [|split; [|split]]]].
  - destruct (Re.search_agm raw_text) as [d|] eqn:E.
    + split; [|reflexivity]. intros _. exists d.
      apply search_agm_sound. exact E.
    + split; [discriminate|]. intros (d & Hd).
      apply search_agm_complete in Hd. rewrite E in Hd.
      destruct Hd as [? [=]].
  - intros d. apply search_agm_first.
  - intros d d' Hd Hd'. apply search_agm_first in Hd, Hd'. congruence.
  - destruct (Re.search_agm raw_text) as [d|] eqn:E; [|discriminate].
    intros _. exists d. apply search_agm_first in E.
    auto using FirstAgm_AgmOccurs.
  - destruct (Re.search_agm raw_text) as [d|] eqn:E.
    + intros Hne. exfalso. apply Hne. reflexivity.
    + intros _. split; reflexivity.
  - intros pre post ->. split; [|split].
    + destruct (search_agm_complete _ _ (AgmOccurs_sentence pre post))
        as [d ->].
      reflexivity.
    + apply search_agm_sentence.
    + intros Hno. apply search_agm_sentence.
      apply (no_phrase_NoAgmIn pre "Annual General Meetin"
               ("g held on 12/05/2023" +:+ post) eq_refl Hno).
Qed.

Lemma agm_rule_witness :
  let raw_text :=
    "annual general meeting on 1/2/2000, adjourned to 3/4/2001" in
  let context := Extractor.extract_contextual_information raw_text in
  Context.agm_date context = Some "1/2/2000" /\
  FirstAgm raw_text "1/2/2000" /\
  AgmOccurs same_line raw_text "3/4/2001" /\
  ~ FirstAgm raw_text "3/4/2001".
Proof.
  intros raw_text context. split; [reflexivity|]. split; [|split].
  - exact (proj1 (proj1 (proj2 (agm_rule raw_text)) "1/2/2000") eq_refl).
  - exists "", "annual general meeting", " on 1/2/2000, adjourned to ", "".
    split; [reflexivity|]. split; [reflexivity|]. split; [reflexivity|].
    exists "3", "/"%char, "4", "/"%char, "2001". repeat split; auto.
  - intros H.
    apply (proj2 (proj1 (proj2 (agm_rule raw_text)) "3/4/2001")) in H.
    discriminate H.
Defined.

(** ** The field mapper *)

Lemma lower_app_inv (s u w : string) :
  lower s = u +:+ w ->
  exists s1 s2, s = s1 +:+ s2 /\ lower s1 = u /\ lower s2 = w.
Proof.
  revert s. induction u as [|c u IH]; intros s H.
  - exists "", s. auto.
  - destruct s as [|x s]; [discriminate|]. simpl in H.
    injection H as Hc H. destruct (IH s H) as (s1 & s2 & -> & H1 & H2).
    exists (String x s1), s2. simpl. rewrite Hc, H1. auto.
Qed.

(** For a lower-case [x], the test [x in name.lower()] says that [name]
    mentions [x]. *)
Lemma contains_lower_Mentions (x name : string) :
  lower x = x -> (contains x (lower name) = true <-> Mentions x name).
Proof.
  intros Hx. split.
  - intros H. apply contains_spec in H. destruct H as (a & b & H).
    apply lower_app_inv in H. destruct H as (s1 & s2 & -> & _ & H).
    apply lower_app_inv in H. destruct H as (m & s3 & -> & Hm & _).
    exists s1, m, s3. rewrite Hx. auto.
  - intros H. apply Mentions_contains in H. rewrite Hx in H. exact H.
Qed.

Lemma blocklist_lower (x : string) : In x Extractor.blocklist -> lower x = x.
Proof.
  unfold Extractor.blocklist. simpl.
  intros H. repeat (destruct H as [<-|H]; [reflexivity|]). destruct H.
Qed.

(** A name passes the "system/hidden fields" test exactly when it
    mentions none of the reserved substrings. *)
Lemma is_system_field_false_iff (name : string) :
  Extractor.is_system_field name = false <->
  forall x, In x Extractor.blocklist -> ~ Mentions x name.
Proof.
  split.
  - intros H x Hin Hm.
    apply (contains_lower_Mentions x name (blocklist_lower x Hin)) in Hm.
    rewrite (is_system_field_false name x H Hin) in Hm. discriminate.
  - intros H. unfold Extractor.is_system_field.
    destruct (existsb _ _) eqn:E; [|reflexivity].
    apply existsb_exists in E. destruct E as (x & Hin & Hx).
    apply (contains_lower_Mentions x name (blocklist_lower x Hin)) in Hx.
    destruct (H x Hin Hx).
Qed.

Lemma strip_strip_nonempty (s : string) : strip s <> "" -> strip (strip s) <> "".
Proof.
  rewrite !strip_empty, strip_all_space. tauto.
Qed.

(** C7: whatever the raw fields, every entry of the mapper's output has
    a name that mentions none of [hidden], [sid], [call_id], [form_id],
    [version], [reader], [sign] (case ignored), a value that is neither
    empty nor whitespace-only, and comes from a raw field whose stripped
    identifier mentions none of them either: a raw field whose stripped
    identifier mentions one never appears, whatever its value. *)
Theorem clean_and_map_blocklist (pdf_path : string)
    (form_fields : list (string * option string)) (k v : string) :
  Extractor.clean_and_map_form_fields (Extractor.__init__ pdf_path) form_fields
    !! k = Some v ->
  (forall x, In x Extractor.blocklist -> ~ Mentions x k) /\
  strip v <> "" /\
  exists field_name value,
    In (field_name, Some value) form_fields /\
    (forall x, In x Extractor.blocklist ->
               ~ Mentions x (Re.sub_index_suffix field_name)) /\
    k = default (Re.sub_index_suffix field_name)
          (Extractor.field_mapping (Extractor.__init__ pdf_path)
             !! Re.sub_index_suffix field_name) /\
    v = strip value.
Proof.
  intros H. apply clean_and_map_origin in H.
  destruct H as ([field_name o] & Hin & Hm).
  pose proof (maps_to_not_system _ _ _ _ (init_table_clean pdf_path) Hm) as Hk.
  destruct Hm as (value & Ho & Hv & Hb & -> & ->). cbn [fst snd] in *.
  subst o.
  split; [apply is_system_field_false_iff; exact Hk|].
  split; [apply strip_strip_nonempty; exact Hv|].
  exists field_name, value. split; [exact Hin|].
  split; [apply is_system_field_false_iff; exact Hb|]. auto.
Qed.

Lemma clean_and_map_blocklist_witness :
  let form_fields :=
    [ ("CIN_C[0]", Some " U12345 "); ("Signature_C", Some "signed");
      ("HiddenField", Some "1"); ("note", Some "  ") ] in
  Extractor.clean_and_map_form_fields (Extractor.__init__ "form.pdf") form_fields
    !! "company_cin" = Some "U12345" /\
  (forall x, In x Extractor.blocklist -> ~ Mentions x "company_cin") /\
  strip "U12345" <> "".
Proof.
  intros form_fields.
  assert (H : Extractor.clean_and_map_form_fields (Extractor.__init__ "form.pdf")
                form_fields !! "company_cin" = Some "U12345")
    by (vm_compute; reflexivity).
  split; [exact H|].
  destruct (clean_and_map_blocklist "form.pdf" form_fields _ _ H)
    as (H1 & H2 & _).
  split; [exact H1|exact H2].
Defined.

(** ** The consolidator *)

Lemma consolidate_key_origin (m : gmap string string) (k : string) :
  is_Some (Extractor.consolidate_duplicate_fields m !! k) ->
  (endswith "_alt" k = false /\ is_Some (m !! k)) \/
  is_Some (m !! (k +:+ "_alt")).
Proof.
  rewrite consolidate_lookup. unfold consolidated_value.
  destruct (endswith "_alt" k); [auto|].
  destruct (m !! k) as [v|]; [|auto]. intros _. left. eauto.
Qed.

(** C5, as the claim states it, fails: a name with the suffix twice keeps
    one suffix after the first pass and loses it in the second. *)
Lemma consolidate_not_idempotent_counterexample :
  let S : gmap string string := dict_of_items [("x_alt_alt", "v")] in
  Extractor.consolidate_duplicate_fields
    (Extractor.consolidate_duplicate_fields S)
  <> Extractor.consolidate_duplicate_fields S /\
  Extractor.consolidate_duplicate_fields S !! "x_alt" = Some "v" /\
  endswith "_alt" "x_alt" = true.
Proof.
  intros S. split; [|split; vm_compute; reflexivity].
  assert (H1 : Extractor.consolidate_duplicate_fields
                 (Extractor.consolidate_duplicate_fields S) !! "x" = Some "v")
    by (vm_compute; reflexivity).
  assert (H2 : Extractor.consolidate_duplicate_fields S !! "x" = None)
    by (vm_compute; reflexivity).
  intros H. rewrite <- H in H2. congruence.
Qed.

(** C5, amended: for every canonical field set in which no name ends with
    [_alt_alt], consolidating twice gives what consolidating once gives,
    and no name of the output ends with [_alt]. *)
Theorem consolidate_idempotent (S : gmap string string) :
  (forall k, is_Some (S !! k) -> endswith "_alt_alt" k = false) ->
  Extractor.consolidate_duplicate_fields
    (Extractor.consolidate_duplicate_fields S)
  = Extractor.consolidate_duplicate_fields S /\
  (forall k, is_Some (Extractor.consolidate_duplicate_fields S !! k) ->
             endswith "_alt" k = false).
Proof.
  intros HS.
  assert (Hout : forall k,
             is_Some (Extractor.consolidate_duplicate_fields S !! k) ->
             endswith "_alt" k = false).
  { intros k Hk. destruct (endswith "_alt" k) eqn:E; [|reflexivity].
    apply consolidate_key_origin in Hk. destruct Hk as [[Hk _]|Hk].
    - congruence.
    - apply HS in Hk. rewrite (endswith_alt_alt k E) in Hk. discriminate. }
  assert (Hnone : forall k, endswith "_alt" k = true ->
             Extractor.consolidate_duplicate_fields S !! k = None).
  { intros k E.
    destruct (Extractor.consolidate_duplicate_fields S !! k) eqn:Ek;
      [|reflexivity].
    rewrite (Hout k) in E by eauto. discriminate. }
  split; [|exact Hout].
  apply map_eq. intros k. rewrite consolidate_lookup.
  unfold consolidated_value.
  rewrite (Hnone (k +:+ "_alt")) by apply endswith_app.
  destruct (endswith "_alt" k) eqn:E.
  - symmetry. apply Hnone. exact E.
  - destruct (Extractor.consolidate_duplicate_fields S !! k) as [v|];
      [destruct (truthy v)|]; reflexivity.
Qed.

Lemma consolidate_idempotent_witness :
  let S : gmap string string :=
    dict_of_items [("agm_date_alt", "01/02/2023"); ("company_city", "Pune");
                   ("company_city_alt", "Poona")] in
  Extractor.consolidate_duplicate_fields
    (Extractor.consolidate_duplicate_fields S)
  = Extractor.consolidate_duplicate_fields S /\
  (forall k, is_Some (Extractor.consolidate_duplicate_fields S !! k) ->
             endswith "_alt" k = false).
Proof.
  intros S. apply (consolidate_idempotent S).
  intros k Hk. apply negb_true_iff.
  apply (dict_keys_forallb S (fun k => negb (endswith "_alt_alt" k)));
    [|exact Hk].
  vm_compute. reflexivity.
Defined.

(** C6, as the claim states it, fails in its last part: with the keys
    [x_alt] and [x_alt_alt] present and [x] absent, the value of [x_alt]
    goes to [x], and the name [x_alt] is in the output all the same. *)
Lemma consolidate_alt_name_survives_counterexample :
  let S : gmap string string :=
    dict_of_items [("x_alt", "v"); ("x_alt_alt", "w")] in
  S !! "x" = None /\ S !! "x_alt" = Some "v" /\
  Extractor.consolidate_duplicate_fields S !! "x" = Some "v" /\
  Extractor.consolidate_duplicate_fields S !! "x_alt" = Some "w".
Proof. repeat split; vm_compute; reflexivity. Qed.

(** C6, amended: with [P_alt = v] present, consolidation yields [P = v]
    when [P] is absent, and [P = x] when the primary [P] (a name without
    the suffix) has the non-empty value [x]; the name [P_alt] is in the
    output only when the input has the name [P_alt_alt], whose value it
    then carries. *)
Theorem consolidate_alt_merge (S : gmap string string) (P v : string) :
  S !! (P +:+ "_alt") = Some v ->
  (S !! P = None ->
   Extractor.consolidate_duplicate_fields S !! P = Some v) /\
  (forall x, endswith "_alt" P = false -> S !! P = Some x -> x <> "" ->
   Extractor.consolidate_duplicate_fields S !! P = Some x) /\
  Extractor.consolidate_duplicate_fields S !! (P +:+ "_alt")
  = S !! (P +:+ "_alt_alt").
Proof.
  intros Halt. rewrite !consolidate_lookup. unfold consolidated_value.
  split; [|split].
  - intros HP. rewrite HP, Halt. destruct (endswith "_alt" P); reflexivity.
  - intros x E HP Hx. rewrite E, HP.
    apply truthy_true in Hx. rewrite Hx. reflexivity.
  - rewrite endswith_app, app_assoc. reflexivity.
Qed.

Lemma consolidate_alt_merge_witness :
  let S : gmap string string :=
    dict_of_items [("company_city_alt", "Poona"); ("auditor_city", "Pune");
                   ("auditor_city_alt", "Poona")] in
  Extractor.consolidate_duplicate_fields S !! "company_city" = Some "Poona" /\
  Extractor.consolidate_duplicate_fields S !! "auditor_city" = Some "Pune".
Proof.
  intros S.
  assert (H1 : S !! ("company_city" +:+ "_alt") = Some "Poona")
    by (vm_compute; reflexivity).
  assert (H2 : S !! "company_city" = None) by (vm_compute; reflexivity).
  assert (H3 : S !! ("auditor_city" +:+ "_alt") = Some "Poona")
    by (vm_compute; reflexivity).
  assert (H4 : S !! "auditor_city" = Some "Pune")
    by (vm_compute; reflexivity).
  split.
  - exact (proj1 (consolidate_alt_merge S "company_city" "Poona" H1) H2).
  - apply (proj1 (proj2 (consolidate_alt_merge S "auditor_city" "Poona" H3))
             "Pune" eq_refl H4).
    discriminate.
Defined.

(** ** The digital-signature indicator *)

Lemma digital_signature_of_keys (fields : gmap string string)
    (context : Context.t) (raw_text : string) :
  (forall k, is_Some (fields !! k) -> ~ Mentions "sign" k) ->
  ComplianceInformation.digital_signature
    (LlmData.compliance_information
       (Extractor.assemble fields context raw_text))
  = "Not verified".
Proof.
  intros H. simpl.
  destruct (existsb _ _) eqn:E; [|reflexivity].
  apply existsb_exists in E. destruct E as (k & Hin & Hk).
  apply dict_keys_In in Hin.
  apply (contains_lower_Mentions "sign" k eq_refl) in Hk.
  destruct (H k Hin Hk).
Qed.

Lemma Mentions_app_l (x a b : string) : Mentions x a -> Mentions x (a +:+ b).
Proof.
  intros (u & m & w & -> & Hm). exists u, m, (w +:+ b).
  rewrite !app_assoc. auto.
Qed.

(** C2: when no canonical name of the mapping table mentions [sign],
    the document assembled from the mapped and consolidated fields has
    [digital_signature = "Not verified"], whatever the raw fields and the
    raw text: the mapper has dropped every raw field whose stripped
    identifier mentions [sign]. *)
Theorem digital_signature_not_verified (self : Extractor.t)
    (form_fields : list (string * option string)) (raw_text : string) :
  (forall k v, Extractor.field_mapping self !! k = Some v ->
               ~ Mentions "sign" v) ->
  ComplianceInformation.digital_signature
    (LlmData.compliance_information
       (Extractor.extract_structured_data self form_fields raw_text))
  = "Not verified".
Proof.
  intros Htable. unfold Extractor.extract_structured_data,
    Extractor.create_llm_ready_summary_data.
  apply digital_signature_of_keys.
  assert (Hclean : forall k,
            is_Some (Extractor.clean_and_map_form_fields self form_fields !! k)
            -> ~ Mentions "sign" k).
  { intros k [v Hk]. apply clean_and_map_origin in Hk.
    destruct Hk as (item & _ & value & _ & _ & Hb & -> & _).
    destruct (Extractor.field_mapping self !! _) as [canon|] eqn:E; simpl.
    - exact (Htable _ _ E).
    - apply is_system_field_false_iff with (x := "sign") in Hb; [exact Hb|].
      unfold Extractor.blocklist. simpl. tauto. }
  intros k Hk Hm. apply consolidate_key_origin in Hk.
  destruct Hk as [[_ Hk]|Hk].
  - exact (Hclean k Hk Hm).
  - exact (Hclean _ Hk (Mentions_app_l _ _ _ Hm)).
Qed.

Lemma init_table_no_sign (pdf_path : string) (k v : string) :
  Extractor.field_mapping (Extractor.__init__ pdf_path) !! k = Some v ->
  ~ Mentions "sign" v.
Proof.
  intros H. apply (init_table_clean pdf_path) in H.
  apply is_system_field_false_iff with (x := "sign") in H; [exact H|].
  unfold Extractor.blocklist. simpl. tauto.
Qed.

Lemma digital_signature_not_verified_witness :
  ComplianceInformation.digital_signature
    (LlmData.compliance_information
       (Extractor.extract_structured_data (Extractor.__init__ "form.pdf")
          [ ("DigitalSignature_C[0]", Some "signed by the director");
            ("CIN_C", Some "U12345"); ("Sign_alt", Some "yes") ]
          "Signed at the annual general meeting"))
  = "Not verified".
Proof.
  apply digital_signature_not_verified.
  apply init_table_no_sign.
Defined.

(** ** The document assembler *)

(** C3, as the claim states it, fails: with no field and no context fact
    at all, [number_of_auditors] is ["1"], not the sentinel of a string
    field. *)
Lemma number_of_auditors_default_counterexample :
  let fields : gmap string string := ∅ in
  let d := Extractor.assemble fields empty_context "" in
  AuditorInformation.number_of_auditors (LlmData.auditor_information d) = "1"
  /\ AuditorInformation.number_of_auditors (LlmData.auditor_information d)
     <> resolve (fields !! "number_of_auditors") None "Not specified".
Proof. split; [reflexivity|]. vm_compute. discriminate. Qed.

(** C3, amended: every declared field of the four sections is resolved
    by the explicit canonical field if present, else the context-derived
    value if there is one, else the sentinel ["Not specified"], [false]
    or [[]], with these exceptions: [number_of_auditors] defaults to
    ["1"]; [form_filing_date] falls back to the canonical field
    [current_date] before the sentinel; the two [address] fields are what
    the address builder returns; [attachments] is the parsed [attachments]
    field; [digital_signature] is ["Present"] when a field name contains
    [sign] (case ignored) and ["Not verified"] otherwise. *)
Theorem assemble_field_resolution (fields : gmap string string)
    (context : Context.t) (raw_text : string) :
  let d := Extractor.assemble fields context raw_text in
  let company := LlmData.company_information d in
  let auditor := LlmData.auditor_information d in
  let appointment := LlmData.appointment_details d in
  let compliance := LlmData.compliance_information d in
  let field k := resolve (fields !! k) None "Not specified" in
  (CompanyInformation.name company = field "company_name" /\
   CompanyInformation.cin company = field "company_cin" /\
   CompanyInformation.type company
   = resolve None (Context.company_type context) "Not specified" /\
   CompanyInformation.email company = field "company_email" /\
   CompanyInformation.address company
   = Extractor._build_address fields "company" /\
   CompanyInformation.state company = field "company_state" /\
   CompanyInformation.pincode company = field "company_pincode") /\
  (AuditorInformation.firm_name auditor = field "auditor_firm_name" /\
   AuditorInformation.pan auditor = field "auditor_pan" /\
   AuditorInformation.membership_number auditor
   = field "auditor_membership_number" /\
   AuditorInformation.email auditor = field "auditor_email" /\
   AuditorInformation.address auditor
   = Extractor._build_address fields "auditor" /\
   AuditorInformation.qualification auditor
   = resolve None (Context.auditor_qualification context) "Not specified" /\
   AuditorInformation.number_of_auditors auditor
   = resolve (fields !! "number_of_auditors") None "1" /\
   AuditorInformation.joint_appointment auditor
   = resolve None (Context.joint_auditors context) false) /\
  (AppointmentDetails.appointment_date appointment
   = field "appointment_date" /\
   AppointmentDetails.audit_period_start appointment
   = field "audit_period_from" /\
   AppointmentDetails.audit_period_end appointment
   = field "audit_period_to" /\
   AppointmentDetails.financial_years_count appointment
   = field "number_of_financial_years" /\
   AppointmentDetails.agm_date appointment
   = resolve (fields !! "agm_date") (Context.agm_date context)
       "Not specified" /\
   AppointmentDetails.agm_conducted appointment
   = resolve None (Context.agm_conducted context) false /\
   AppointmentDetails.resolution_number appointment
   = field "resolution_number" /\
   AppointmentDetails.director_din appointment = field "director_din") /\
  (ComplianceInformation.form_filing_date compliance
   = resolve (fields !! "form_date") (fields !! "current_date")
       "Not specified" /\
   ComplianceInformation.receipt_date compliance = field "receipt_date" /\
   ComplianceInformation.certificate_serial compliance
   = field "certificate_serial_number" /\
   ComplianceInformation.attachments compliance
   = resolve (Extractor._parse_attachments <$> fields !! "attachments")
       None [] /\
   ComplianceInformation.digital_signature compliance
   = if existsb (fun k => contains "sign" (lower k)) (dict_keys fields)
     then "Present" else "Not verified").
Proof.
  unfold resolve. cbn [Extractor.assemble LlmData.company_information
    LlmData.auditor_information LlmData.appointment_details
    LlmData.compliance_information CompanyInformation.name
    CompanyInformation.cin CompanyInformation.type CompanyInformation.email
    CompanyInformation.address CompanyInformation.state
    CompanyInformation.pincode AuditorInformation.firm_name
    AuditorInformation.pan AuditorInformation.membership_number
    AuditorInformation.email AuditorInformation.address
    AuditorInformation.qualification AuditorInformation.number_of_auditors
    AuditorInformation.joint_appointment AppointmentDetails.appointment_date
    AppointmentDetails.audit_period_start AppointmentDetails.audit_period_end
    AppointmentDetails.financial_years_count AppointmentDetails.agm_date
    AppointmentDetails.agm_conducted AppointmentDetails.resolution_number
    AppointmentDetails.director_din ComplianceInformation.form_filing_date
    ComplianceInformation.receipt_date
    ComplianceInformation.certificate_serial
    ComplianceInformation.attachments
    ComplianceInformation.digital_signature].
  repeat split; try reflexivity; destruct (fields !! _); reflexivity.
Qed.

Example build_address_ex :
  Extractor._build_address
    (dict_of_items [("company_address_line1", "A"); ("company_city", "B");
                    ("company_state", "C"); ("company_pincode", "D")])
    "company" = "A, B, C, D" /\
  Extractor._build_address ∅ "company" = "Not specified".
Proof. split; vm_compute; reflexivity. Qed.

Example parse_attachments_ex :
  Extractor._parse_attachments "a, b ,,c" = ["a"; "b"; "c"].
Proof. reflexivity. Qed.

(** ** Empty input *)

(** C1, as the claim states it, fails: on the empty raw field set and the
    empty raw text the list of narrative points has one entry, because
    the appointment type ['Unknown'] is a non-empty string, and
    [number_of_auditors] is ["1"], not ["Not specified"]. *)
Lemma empty_input_counterexample :
  let d := Extractor.extract_structured_data (Extractor.__init__ "form.pdf") [] ""
  in
  LlmData.key_narrative_points d = ["This is a unknown"] /\
  LlmData.key_narrative_points d <> [] /\
  AuditorInformation.number_of_auditors (LlmData.auditor_information d)
  <> "Not specified".
Proof.
  intros d.
  assert (H1 : LlmData.key_narrative_points d = ["This is a unknown"])
    by (vm_compute; reflexivity).
  assert (H2 : AuditorInformation.number_of_auditors
                 (LlmData.auditor_information d) = "1")
    by (vm_compute; reflexivity).
  split; [exact H1|]. split; [rewrite H1|rewrite H2]; discriminate.
Qed.

(** C1, amended: on the empty raw field set and the empty raw text the
    pipeline returns a document, with every field filled: each string
    field of the four sections is ["Not specified"], except
    [number_of_auditors], which is ["1"], and [digital_signature], which
    is ["Not verified"]; each boolean field is [false]; each list field
    is [[]]; the appointment nature is ["Unknown"]; and
    [key_narrative_points] is the one-entry list ["This is a unknown"]. *)
Theorem empty_input_document (pdf_path : string) :
  Extractor.extract_structured_data (Extractor.__init__ pdf_path) [] "" =
  {| LlmData.document_type := "ADT-1 Form - Notice of Auditor Appointment";
     LlmData.summary_context :=
       {| SummaryContext.purpose :=
            "This document notifies the Registrar of Companies about the appointment of an auditor";
          SummaryContext.legal_framework :=
            "Filed under the Companies Act, 2013";
          SummaryContext.appointment_nature := "Unknown";
          SummaryContext.compliance_sections := [] |};
     LlmData.company_information :=
       {| CompanyInformation.name := "Not specified";
          CompanyInformation.cin := "Not specified";
          CompanyInformation.type := "Not specified";
          CompanyInformation.email := "Not specified";
          CompanyInformation.address := "Not specified";
          CompanyInformation.state := "Not specified";
          CompanyInformation.pincode := "Not specified" |};
     LlmData.auditor_information :=
       {| AuditorInformation.firm_name := "Not specified";
          AuditorInformation.pan := "Not specified";
          AuditorInformation.membership_number := "Not specified";
          AuditorInformation.email := "Not specified";
          AuditorInformation.address := "Not specified";
          AuditorInformation.qualification := "Not specified";
          AuditorInformation.number_of_auditors := "1";
          AuditorInformation.joint_appointment := false |};
     LlmData.appointment_details :=
       {| AppointmentDetails.appointment_date := "Not specified";
          AppointmentDetails.audit_period_start := "Not specified";
          AppointmentDetails.audit_period_end := "Not specified";
          AppointmentDetails.financial_years_count := "Not specified";
          AppointmentDetails.agm_date := "Not specified";
          AppointmentDetails.agm_conducted := false;
          AppointmentDetails.resolution_number := "Not specified";
          AppointmentDetails.director_din := "Not specified" |};
     LlmData.compliance_information :=
       {| ComplianceInformation.form_filing_date := "Not specified";
          ComplianceInformation.receipt_date := "Not specified";
          ComplianceInformation.certificate_serial := "Not specified";
          ComplianceInformation.attachments := [];
          ComplianceInformation.digital_signature := "Not verified" |};
     LlmData.key_narrative_points := ["This is a unknown"];
     LlmData.summary_template := Extractor.the_summary_template |}.
Proof. vm_compute. reflexivity. Qed.

(** ** The summary formatter *)

Module SummaryFacts.
Import Py Summary SummarySpec.

(** One subscript of the source, by cases. *)
Ltac raised :=
  intros;
  repeat match goal with H : _ /\ _ |- _ => destruct H end;
  first [congruence | eauto].

Ltac getitem_step :=
  match goal with
  | |- context [getitem ?v ?k] =>
      destruct (getitem v k) eqn:?; simpl; [|solve [raised]]
  end.

(** With the twelve keys there, the formatter is [render]. *)
Lemma generate_summary_reads (data : value) (r : required) :
  reads data r -> generate_summary data = render r.
Proof.
  unfold reads, generate_summary, render, render_with. destruct r. simpl.
  repeat getitem_step.
  intros (? & ? & ? & ? & ? & ? & ? & ? & ? & ? & ? & ?). simplify_eq.
  destruct (split _) as [tokens|]; simpl; [|reflexivity].
  destruct (head_str tokens); simpl; [|reflexivity].
  destruct (lower _); reflexivity.
Qed.






(** *** [split()] and its first token *)

Import PyStr StrSpec PyStrFacts.






End SummaryFacts.

Import Py Summary SummarySpec SummaryFacts.






(** * Further properties of the code *)

Import MapperSpec PyStr.

(** ** [strip] *)

Lemma lstrip_unfold (s : string) :
  lstrip s = match s with
             | EmptyString => EmptyString
             | String c r => if isspace c then lstrip r else s
             end.
Proof. destruct s; reflexivity. Qed.

(** What [lstrip] returns does not start with whitespace. *)
Lemma lstrip_head (s : string) :
  match lstrip s with
  | EmptyString => True
  | String c _ => isspace c = false
  end.
Proof.
  induction s as [|c s IH]; simpl; [exact I|].
  destruct (isspace c) eqn:E; [exact IH|]. exact E.
Qed.

Lemma rstrip_idempotent (s : string) : rstrip (rstrip s) = rstrip s.
Proof.
  induction s as [|c s IH]; simpl; [reflexivity|].
  destruct (rstrip s) as [|d r] eqn:E.
  - destruct (isspace c) eqn:Ec; simpl; [reflexivity|]. rewrite Ec.
    reflexivity.
  - simpl in IH |- *. rewrite IH. reflexivity.
Qed.

Lemma rstrip_keeps_head (c : ascii) (s : string) :
  isspace c = false -> exists r, rstrip (String c s) = String c r.
Proof.
  intros Hc. simpl. destruct (rstrip s); [rewrite Hc|]; eauto.
Qed.

Lemma strip_idempotent (s : string) : strip (strip s) = strip s.
Proof.
  unfold strip. pose proof (lstrip_head s) as H.
  destruct (lstrip s) as [|c t] eqn:E; [reflexivity|].
  destruct (rstrip_keeps_head c t H) as [r Hr].
  rewrite Hr. simpl lstrip. rewrite H, <- Hr. apply rstrip_idempotent.
Qed.

(** ** The index suffix of a raw identifier *)

Lemma has_char_app (c : ascii) (a b : string) :
  has_char c (a +:+ b) = has_char c a || has_char c b.
Proof.
  induction a as [|x a IH]; simpl; [reflexivity|].
  rewrite IH. apply orb_assoc.
Qed.

Lemma skip_digits_app (ds rest : string) :
  all_digits ds = true ->
  match rest with
  | EmptyString => True
  | String c _ => isdigit c = false
  end ->
  Re.skip_digits (ds +:+ rest) = rest.
Proof.
  intros Hds Hrest. induction ds as [|d ds IH]; simpl in *.
  - destruct rest as [|c r]; [reflexivity|]. simpl. rewrite Hrest.
    reflexivity.
  - apply andb_prop in Hds. destruct Hds as [-> Hds]. auto.
Qed.

Lemma skip_digits_split (r : string) :
  exists ds, all_digits ds = true /\ r = ds +:+ Re.skip_digits r.
Proof.
  induction r as [|c r IH]; simpl.
  - exists "". auto.
  - destruct (isdigit c) eqn:E.
    + destruct IH as (ds & Hds & Hr). exists (String c ds). simpl.
      rewrite E, Hds. split; [reflexivity|]. congruence.
    + exists "". auto.
Qed.

Lemma at_dollar_spec (t : string) :
  Re.at_dollar t = true <-> t = "" \/ t = String Re.LF "".
Proof.
  destruct t as [|c [|d t]]; simpl; split; auto.
  - intros H. apply Ascii.eqb_eq in H. subst. auto.
  - intros [H|H]; [discriminate|]. injection H as ->. reflexivity.
  - discriminate.
  - intros [H|H]; discriminate.
Qed.

(** The pattern at the start of a text: a bracketed run of digits, then
    the end of the text or its final newline. *)
Lemma match_index_suffix_spec (s t : string) :
  Re.match_index_suffix s = Some t <->
  exists ds, ds <> "" /\ all_digits ds = true /\
             s = index_suffix ds +:+ t /\ Re.at_dollar t = true.
Proof.
  unfold Re.match_index_suffix, index_suffix. split.
  - destruct s as [|b [|d r]]; try discriminate.
    destruct (Ascii.eqb_spec b "["%char) as [->|]; [|discriminate].
    destruct (isdigit d) eqn:Ed; [|discriminate]. simpl.
    destruct (skip_digits_split r) as (ds & Hds & Hr).
    destruct (Re.skip_digits r) as [|e t'] eqn:E; [discriminate|].
    destruct (Ascii.eqb_spec e "]"%char) as [->|]; [|discriminate].
    destruct (Re.at_dollar t') eqn:Et; [|discriminate]. simpl.
    intros [= <-]. exists (String d ds). simpl. rewrite Ed, Hds.
    split; [discriminate|]. split; [reflexivity|]. split; [|exact Et].
    rewrite Hr, !app_assoc. reflexivity.
  - intros (ds & Hne & Hds & -> & Ht).
    destruct ds as [|d ds]; [congruence|]. simpl in *.
    apply andb_prop in Hds. destruct Hds as [Hd Hds]. rewrite Hd. simpl.
    rewrite app_assoc, (skip_digits_app ds ("]" +:+ t) Hds) by reflexivity.
    simpl. rewrite Ht. reflexivity.
Qed.

Lemma sub_index_suffix_unfold (s : string) :
  Re.sub_index_suffix s =
  match Re.match_index_suffix s with
  | Some t => t
  | None =>
      match s with
      | EmptyString => EmptyString
      | String c r => String c (Re.sub_index_suffix r)
      end
  end.
Proof. destruct s; reflexivity. Qed.

Lemma all_digits_no_bracket (ds : string) :
  all_digits ds = true -> has_char "["%char ds = false.
Proof.
  induction ds as [|d ds IH]; simpl; [reflexivity|].
  intros H. apply andb_prop in H. destruct H as [Hd Hds].
  rewrite (IH Hds), orb_false_r.
  destruct (Ascii.eqb_spec d "["%char) as [->|]; [discriminate|reflexivity].
Qed.

(** The pattern does not match where a bracket opens further on. *)
Lemma match_index_suffix_None (c : ascii) (x rest : string) :
  has_char "["%char (x +:+ rest) = true ->
  Re.match_index_suffix (String c (x +:+ rest)) = None.
Proof.
  intros H.
  destruct (Re.match_index_suffix (String c (x +:+ rest))) as [t|] eqn:E;
    [|reflexivity].
  apply match_index_suffix_spec in E.
  destruct E as (ds & _ & Hds & E & Ht). unfold index_suffix in E.
  simpl in E. injection E as _ E. rewrite E, !has_char_app in H.
  rewrite (all_digits_no_bracket ds Hds) in H. simpl in H.
  apply at_dollar_spec in Ht. destruct Ht as [->| ->]; discriminate.
Qed.

(** X1: the mapper's substitution removes exactly the index that ends an
    identifier: for any [X] and any non-empty run of digits [ds], it
    turns [X[ds]] into [X], also when [X] itself ends with an index, and
    [X[ds]] followed by a final newline into [X] and the newline. *)
Theorem sub_index_suffix_strips_one (X ds : string) :
  ds <> "" -> all_digits ds = true ->
  Re.sub_index_suffix (X +:+ index_suffix ds) = X /\
  Re.sub_index_suffix (X +:+ index_suffix ds +:+ String Re.LF "")
  = X +:+ String Re.LF "".
Proof.
  intros Hne Hds.
  assert (G : forall t, Re.at_dollar t = true ->
            Re.sub_index_suffix (X +:+ index_suffix ds +:+ t) = X +:+ t).
  { intros t Ht. induction X as [|c X IH].
    - assert (E : Re.match_index_suffix (index_suffix ds +:+ t) = Some t)
        by (apply match_index_suffix_spec; exists ds; auto).
      rewrite !app_nil_l, sub_index_suffix_unfold, E. reflexivity.
    - rewrite !app_cons, sub_index_suffix_unfold.
      rewrite match_index_suffix_None, IH; [reflexivity|].
      rewrite has_char_app. unfold index_suffix. simpl.
      apply orb_true_r. }
  split.
  - rewrite <- (app_nil_r (X +:+ index_suffix ds)), app_assoc.
    rewrite (G "" eq_refl). apply app_nil_r.
  - apply (G (String Re.LF "") eq_refl).
Qed.

Lemma sub_index_suffix_strips_one_witness :
  Re.sub_index_suffix ("CIN_C[1]" +:+ index_suffix "23") = "CIN_C[1]".
Proof.
  apply (sub_index_suffix_strips_one "CIN_C[1]" "23"); [discriminate|].
  reflexivity.
Defined.

(** X2: the substitution changes nothing else: its result is the
    identifier itself, unless the identifier is some [X[ds]] with a
    non-empty run of digits [ds], or that followed by a final newline. *)
Theorem sub_index_suffix_only_index (s : string) :
  Re.sub_index_suffix s = s \/
  exists X ds t,
    ds <> "" /\ all_digits ds = true /\
    (t = "" \/ t = String Re.LF "") /\
    s = X +:+ index_suffix ds +:+ t /\ Re.sub_index_suffix s = X +:+ t.
Proof.
  induction s as [|c s IH]; rewrite sub_index_suffix_unfold.
  - left. reflexivity.
  - destruct (Re.match_index_suffix (String c s)) as [t|] eqn:E.
    + right. apply match_index_suffix_spec in E.
      destruct E as (ds & Hne & Hds & E & Ht). apply at_dollar_spec in Ht.
      exists "", ds, t. auto.
    + destruct IH as [IH|(X & ds & t & Hne & Hds & Ht & Hs & IH)].
      * left. congruence.
      * right. exists (String c X), ds, t. simpl. rewrite IH, Hs. auto.
Qed.

(** ** The field mapper, item by item *)

Lemma clean_and_map_step_kept (self : Extractor.t)
    (acc : gmap string string) (field_name value : string) :
  strip value <> "" ->
  Extractor.is_system_field (Re.sub_index_suffix field_name) = false ->
  Extractor.clean_and_map_step self acc (field_name, Some value)
  = <[canonical_name self field_name := strip value]> acc.
Proof.
  intros Hv Hb. unfold Extractor.clean_and_map_step, canonical_name.
  assert (Hs : truthy (strip value) = true) by (apply truthy_true; exact Hv).
  assert (Ht : truthy value = true).
  { destruct value; [|reflexivity]. exfalso. apply Hv. reflexivity. }
  rewrite Ht, Hs, Hb. reflexivity.
Qed.

Lemma clean_and_map_step_skipped (self : Extractor.t)
    (acc : gmap string string) (item : string * option string) :
  ~ kept item -> Extractor.clean_and_map_step self acc item = acc.
Proof.
  intros Hk. destruct item as [field_name [value|]]; simpl; [|reflexivity].
  destruct (truthy value) eqn:Ev; simpl; [|reflexivity].
  destruct (truthy (strip value)) eqn:Es; simpl; [|reflexivity].
  destruct (Extractor.is_system_field _) eqn:Eb; [reflexivity|].
  exfalso. apply Hk. exists value. apply truthy_true in Es. auto.
Qed.

Lemma clean_and_map_app (self : Extractor.t)
    (l1 l2 : list (string * option string)) :
  Extractor.clean_and_map_form_fields self (l1 ++ l2)
  = foldl (Extractor.clean_and_map_step self)
          (Extractor.clean_and_map_form_fields self l1) l2.
Proof. unfold Extractor.clean_and_map_form_fields. apply foldl_app. Qed.

(** The later items leave a name alone when none of them is stored
    under it. *)
Lemma clean_and_map_foldl_other (self : Extractor.t)
    (l : list (string * option string)) (acc : gmap string string)
    (k : string) :
  (forall item, In item l -> kept item -> canonical_name self item.1 <> k) ->
  foldl (Extractor.clean_and_map_step self) acc l !! k = acc !! k.
Proof.
  revert acc. induction l as [|item l IH]; intros acc H; simpl; [reflexivity|].
  rewrite IH by (intros; apply H; simpl; auto).
  destruct item as [field_name [value|]]; [|reflexivity].
  destruct (decide (strip value = "")) as [Hs|Hs].
  { rewrite clean_and_map_step_skipped; [reflexivity|].
    intros (v & [= <-] & Hv & _). simpl in Hv. contradiction. }
  destruct (Extractor.is_system_field (Re.sub_index_suffix field_name))
    eqn:Hb.
  { rewrite clean_and_map_step_skipped; [reflexivity|].
    intros (v & _ & _ & Hb'). simpl in Hb'. congruence. }
  rewrite clean_and_map_step_kept by assumption.
  apply lookup_insert_ne.
  apply (H (field_name, Some value)); simpl; [auto|].
  exists value. auto.
Qed.

(** X3: when two raw items are stored under one canonical name, the one
    met later wins: the value of a name is the stripped value of the last
    kept item stored under it. *)
Theorem clean_and_map_last_wins (self : Extractor.t)
    (before after : list (string * option string))
    (field_name value : string) :
  strip value <> "" ->
  Extractor.is_system_field (Re.sub_index_suffix field_name) = false ->
  (forall item, In item after -> kept item ->
     canonical_name self item.1 <> canonical_name self field_name) ->
  Extractor.clean_and_map_form_fields self
    (before ++ (field_name, Some value) :: after)
    !! canonical_name self field_name
  = Some (strip value).
Proof.
  intros Hv Hb Hafter.
  rewrite clean_and_map_app. cbn [foldl].
  rewrite clean_and_map_foldl_other by exact Hafter.
  rewrite clean_and_map_step_kept by assumption.
  apply lookup_insert_eq.
Qed.

Lemma clean_and_map_last_wins_witness :
  let self := Extractor.__init__ "form.pdf" in
  Extractor.clean_and_map_form_fields self
    ([("cityname_C[0]", Some "Pune")]
     ++ ("cityname_C[1]", Some " Mumbai ") :: [("note", None)])
    !! canonical_name self "cityname_C[1]"
  = Some (strip " Mumbai ").
Proof.
  intros self. apply clean_and_map_last_wins.
  - discriminate.
  - reflexivity.
  - intros item [<-|[]] (value & H & _). discriminate.
Defined.

(** X4: an item the mapper skips has no effect on its result: a missing
    value, a blank value, or (whatever the value) a reserved identifier. *)
Theorem clean_and_map_skips (self : Extractor.t)
    (before after : list (string * option string))
    (item : string * option string) :
  item.2 = None \/
  (exists value, item.2 = Some value /\ strip value = "") \/
  Extractor.is_system_field (Re.sub_index_suffix item.1) = true ->
  Extractor.clean_and_map_form_fields self (before ++ item :: after)
  = Extractor.clean_and_map_form_fields self (before ++ after).
Proof.
  intros H. rewrite !clean_and_map_app. cbn [foldl].
  rewrite clean_and_map_step_skipped; [reflexivity|].
  intros (value & Hv & Hs & Hb).
  destruct H as [H|[(v & H & Hv')|H]]; congruence.
Qed.

Lemma clean_and_map_skips_witness :
  let self := Extractor.__init__ "form.pdf" in
  Extractor.clean_and_map_form_fields self
    ([("CIN_C", Some "U1")]
     ++ ("DigitalSignature_C", Some "present") :: [("PAN_C", Some "P1")])
  = Extractor.clean_and_map_form_fields self
      ([("CIN_C", Some "U1")] ++ [("PAN_C", Some "P1")]).
Proof.
  intros self. apply clean_and_map_skips. right. right. reflexivity.
Defined.

Lemma clean_and_map_foldl_keeps (self : Extractor.t)
    (l : list (string * option string)) (acc : gmap string string)
    (k : string) :
  is_Some (acc !! k) ->
  is_Some (foldl (Extractor.clean_and_map_step self) acc l !! k).
Proof.
  revert acc. induction l as [|item l IH]; intros acc H; simpl; [exact H|].
  apply IH. destruct item as [field_name [value|]]; simpl; [|exact H].
  destruct (truthy value); simpl; [|exact H].
  destruct (truthy (strip value)); simpl; [|exact H].
  destruct (Extractor.is_system_field _); [exact H|].
  rewrite lookup_insert_is_Some. destruct (decide (default
    (Re.sub_index_suffix field_name)
    (Extractor.field_mapping self !! Re.sub_index_suffix field_name) = k));
    auto.
Qed.

(** X5: the mapper loses no kept item: the canonical name of every raw
    item with a value that is not blank and an identifier that is not
    reserved is a name of the output. *)
Theorem clean_and_map_complete (self : Extractor.t)
    (form_fields : list (string * option string))
    (item : string * option string) :
  In item form_fields -> kept item ->
  is_Some (Extractor.clean_and_map_form_fields self form_fields
             !! canonical_name self item.1).
Proof.
  intros Hin (value & Hv & Hs & Hb).
  destruct item as [field_name o]. cbn [fst snd] in *. subst o.
  apply in_split in Hin. destruct Hin as (l1 & l2 & ->).
  rewrite clean_and_map_app. cbn [foldl]. apply clean_and_map_foldl_keeps.
  rewrite clean_and_map_step_kept by assumption.
  rewrite lookup_insert_eq. eauto.
Qed.

Lemma clean_and_map_complete_witness :
  let self := Extractor.__init__ "form.pdf" in
  is_Some (Extractor.clean_and_map_form_fields self
             [("Unlisted[3]", Some "kept as it is"); ("CIN_C", None)]
             !! canonical_name self "Unlisted[3]").
Proof.
  intros self.
  apply (clean_and_map_complete self _ ("Unlisted[3]", Some "kept as it is")).
  - left. reflexivity.
  - exists "kept as it is".
    split; [reflexivity|]. split; [discriminate|reflexivity].
Defined.

(** ** The canonical field set through the pipeline *)

Lemma clean_and_map_value (self : Extractor.t)
    (form_fields : list (string * option string)) (k v : string) :
  Extractor.clean_and_map_form_fields self form_fields !! k = Some v ->
  v <> "" /\ strip v = v.
Proof.
  intros H. apply clean_and_map_origin in H.
  destruct H as (item & _ & value & _ & Hv & _ & _ & ->).
  split; [exact Hv|apply strip_idempotent].
Qed.

Lemma consolidate_entry_origin (m : gmap string string) (k v : string) :
  Extractor.consolidate_duplicate_fields m !! k = Some v ->
  (endswith "_alt" k = false /\ m !! k = Some v) \/
  m !! (k +:+ "_alt") = Some v.
Proof.
  rewrite consolidate_lookup. unfold consolidated_value.
  destruct (endswith "_alt" k); [auto|].
  destruct (m !! k) as [x|]; [|auto].
  destruct (truthy x); [intros [= <-]; auto|].
  destruct (m !! (k +:+ "_alt")); intros [= <-]; auto.
Qed.

(** X6: the invariant of the canonical field set holds after the
    consolidator too: in the consolidated output of the mapper, no name
    mentions a reserved substring (case ignored), and every value is
    non-empty and has no whitespace at either end. *)
Theorem consolidated_fields_invariant (pdf_path : string)
    (form_fields : list (string * option string)) (k v : string) :
  Extractor.consolidate_duplicate_fields
    (Extractor.clean_and_map_form_fields (Extractor.__init__ pdf_path)
       form_fields) !! k = Some v ->
  (forall x, In x Extractor.blocklist -> ~ Mentions x k) /\
  v <> "" /\ strip v = v.
Proof.
  intros H. apply consolidate_entry_origin in H.
  assert (Hname : forall k' v',
            Extractor.clean_and_map_form_fields (Extractor.__init__ pdf_path)
              form_fields !! k' = Some v' ->
            forall x, In x Extractor.blocklist -> ~ Mentions x k').
  { intros k' v' Hk'. apply is_system_field_false_iff.
    apply clean_and_map_origin in Hk'. destruct Hk' as (item & _ & Hm).
    exact (maps_to_not_system _ _ _ _ (init_table_clean pdf_path) Hm). }
  destruct H as [[_ H]|H].
  - split; [exact (Hname _ _ H)|exact (clean_and_map_value _ _ _ _ H)].
  - split; [|exact (clean_and_map_value _ _ _ _ H)].
    intros x Hx Hm. exact (Hname _ _ H x Hx (Mentions_app_l _ _ _ Hm)).
Qed.

Lemma consolidated_fields_invariant_witness :
  let form_fields :=
    [ ("City_C[0]", Some "  Pune "); ("Version", Some "9") ] in
  Extractor.consolidate_duplicate_fields
    (Extractor.clean_and_map_form_fields (Extractor.__init__ "form.pdf")
       form_fields) !! "company_city" = Some "Pune" /\
  (forall x, In x Extractor.blocklist -> ~ Mentions x "company_city") /\
  "Pune" <> "" /\ strip "Pune" = "Pune".
Proof.
  intros form_fields.
  assert (H : Extractor.consolidate_duplicate_fields
                (Extractor.clean_and_map_form_fields
                   (Extractor.__init__ "form.pdf") form_fields)
                !! "company_city" = Some "Pune")
    by (vm_compute; reflexivity).
  split; [exact H|].
  exact (consolidated_fields_invariant "form.pdf" form_fields _ _ H).
Defined.

(** X7: in the pipeline a primary field always wins: a name without the
    [_alt] suffix that the mapper has filled keeps its value through the
    consolidator, whatever its alt counterpart holds; the alt value is
    used only for an absent primary. *)
Theorem pipeline_primary_wins (self : Extractor.t)
    (form_fields : list (string * option string)) (P x : string) :
  endswith "_alt" P = false ->
  Extractor.clean_and_map_form_fields self form_fields !! P = Some x ->
  Extractor.consolidate_duplicate_fields
    (Extractor.clean_and_map_form_fields self form_fields) !! P = Some x.
Proof.
  intros HP Hx. rewrite consolidate_lookup. unfold consolidated_value.
  rewrite HP, Hx.
  destruct (clean_and_map_value _ _ _ _ Hx) as [Hne _].
  apply truthy_true in Hne. rewrite Hne. reflexivity.
Qed.

Lemma pipeline_primary_wins_witness :
  let self := Extractor.__init__ "form.pdf" in
  let form_fields :=
    [ ("City_C", Some "Poona"); ("cityname_C", Some "Pune") ] in
  Extractor.consolidate_duplicate_fields
    (Extractor.clean_and_map_form_fields self form_fields) !! "company_city"
  = Some "Pune".
Proof.
  intros self form_fields. apply pipeline_primary_wins; [reflexivity|].
  vm_compute. reflexivity.
Defined.

(** ** The consolidator on any field set *)

(** X8: an empty primary is filled: a name without the [_alt] suffix
    whose value is the empty string gets the value of its alt
    counterpart, and keeps the empty string when it has none. *)
Theorem consolidate_empty_primary (S : gmap string string) (P : string) :
  endswith "_alt" P = false -> S !! P = Some "" ->
  Extractor.consolidate_duplicate_fields S !! P
  = Some (default "" (S !! (P +:+ "_alt"))).
Proof.
  intros HP Hx. rewrite consolidate_lookup. unfold consolidated_value.
  rewrite HP, Hx. simpl. destruct (S !! (P +:+ "_alt")); reflexivity.
Qed.

Lemma consolidate_empty_primary_witness :
  let S : gmap string string :=
    dict_of_items [("agm_date", ""); ("agm_date_alt", "01/02/2023")] in
  Extractor.consolidate_duplicate_fields S !! "agm_date"
  = Some (default "" (S !! ("agm_date" +:+ "_alt"))).
Proof.
  intros S. apply consolidate_empty_primary; [reflexivity|].
  vm_compute. reflexivity.
Defined.

(** X9: the consolidator invents nothing and touches nothing without an
    alt: every entry of its output is an entry of its input, under the
    same name or under that name with [_alt] appended; and a name without
    the suffix that has no alt counterpart keeps what it had, present or
    absent. *)
Theorem consolidate_provenance (S : gmap string string) (k : string) :
  (forall v, Extractor.consolidate_duplicate_fields S !! k = Some v ->
     (endswith "_alt" k = false /\ S !! k = Some v) \/
     S !! (k +:+ "_alt") = Some v) /\
  (endswith "_alt" k = false -> S !! (k +:+ "_alt") = None ->
   Extractor.consolidate_duplicate_fields S !! k = S !! k).
Proof.
  split.
  - intros v. apply consolidate_entry_origin.
  - intros Hk Halt. rewrite consolidate_lookup. unfold consolidated_value.
    rewrite Hk, Halt. destruct (S !! k) as [x|]; [|reflexivity].
    destruct (truthy x); reflexivity.
Qed.

Lemma consolidate_provenance_witness :
  let S : gmap string string :=
    dict_of_items [("company_name", "ACME"); ("company_city_alt", "Pune")] in
  Extractor.consolidate_duplicate_fields S !! "company_name"
  = S !! "company_name".
Proof.
  intros S. apply (proj2 (consolidate_provenance S "company_name"));
    [reflexivity|].
  vm_compute. reflexivity.
Defined.

Lemma size_insert_le (m : gmap string string) (i x : string) :
  size (<[i:=x]> m) <= S (size m).
Proof. rewrite map_size_insert. destruct (m !! i); simpl; lia. Qed.

Lemma split_alt_size (m : gmap string string) :
  let st := map_fold Extractor.split_alt_step (∅, ∅) m in
  size st.1 + size st.2 <= size m.
Proof.
  apply (map_fold_weak_ind
    (fun (st : gmap string string * gmap string string) m =>
       size st.1 + size st.2 <= size m)).
  - simpl. rewrite !map_size_empty. lia.
  - intros i x m' [cons alts] Hi IH. simpl in IH.
    rewrite (map_size_insert_None i x m' Hi). unfold Extractor.split_alt_step.
    destruct (endswith "_alt" i); simpl.
    + pose proof (size_insert_le alts (drop_last 4 i) x). lia.
    + pose proof (size_insert_le cons i x). lia.
Qed.

Lemma use_alt_size (cons alts : gmap string string) :
  size (map_fold Extractor.use_alt_step cons alts) <= size cons + size alts.
Proof.
  apply (map_fold_weak_ind
    (fun (r : gmap string string) alts => size r <= size cons + size alts)).
  - rewrite map_size_empty. lia.
  - intros i x alts' r Hi IH.
    rewrite (map_size_insert_None i x alts' Hi). unfold Extractor.use_alt_step.
    pose proof (size_insert_le r i x).
    destruct (r !! i) as [v|]; [destruct (truthy v); simpl|]; lia.
Qed.

(** X10: the two counts of the metadata are ordered: the number of
    consolidated fields is at most the number of mapped fields, which is
    at most the number of raw fields; neither stage adds a field. *)
Theorem processed_fields_bound (self : Extractor.t)
    (form_fields : list (string * option string)) :
  let cleaned := Extractor.clean_and_map_form_fields self form_fields in
  Extractor.processed_fields (Extractor.consolidate_duplicate_fields cleaned)
  <= size cleaned /\
  size cleaned <= Extractor.total_fields_extracted form_fields.
Proof.
  unfold Extractor.processed_fields, Extractor.total_fields_extracted.
  split.
  - unfold Extractor.consolidate_duplicate_fields.
    pose proof (split_alt_size
      (Extractor.clean_and_map_form_fields self form_fields)) as H.
    destruct (map_fold Extractor.split_alt_step (∅, ∅) _) as [cons alts].
    simpl in H. pose proof (use_alt_size cons alts). lia.
  - unfold Extractor.clean_and_map_form_fields.
    assert (G : forall acc,
              size (foldl (Extractor.clean_and_map_step self) acc form_fields)
              <= size acc + length form_fields).
    { induction form_fields as [|item l IH]; intros acc; simpl; [lia|].
      etransitivity; [apply IH|].
      destruct item as [field_name [value|]]; simpl; [|lia].
      destruct (truthy value); simpl; [|lia].
      destruct (truthy (strip value)); simpl; [|lia].
      destruct (Extractor.is_system_field _); [lia|].
      match goal with |- context [size (<[?i:=?x]> acc)] =>
        pose proof (size_insert_le acc i x) end. lia. }
    specialize (G ∅). rewrite map_size_empty in G. exact G.
Qed.

(** ** Context inference, the other rules *)

(** X11: [company_type] is the value of the first rule that matches, in
    the order "private limited", "public limited", "one person company";
    when none matches the key is absent from the context, and the
    assembled document shows ["Not specified"]. *)
Theorem company_type_priority (fields : gmap string string)
    (raw_text : string) :
  let ty :=
    Context.company_type (Extractor.extract_contextual_information raw_text)
  in
  (Mentions "private limited" raw_text ->
   ty = Some "Private Limited Company") /\
  (~ Mentions "private limited" raw_text ->
   Mentions "public limited" raw_text ->
   ty = Some "Public Limited Company") /\
  (~ Mentions "private limited" raw_text ->
   ~ Mentions "public limited" raw_text ->
   Mentions "one person company" raw_text ->
   ty = Some "One Person Company") /\
  (~ Mentions "private limited" raw_text ->
   ~ Mentions "public limited" raw_text ->
   ~ Mentions "one person company" raw_text ->
   ty = None /\
   CompanyInformation.type
     (LlmData.company_information
        (Extractor.create_llm_ready_summary_data fields raw_text))
   = "Not specified").
Proof.
  simpl. rewrite <- !search_literal_i_false, <- !search_literal_i_spec.
  destruct (Re.search_literal_i "private limited" raw_text);
    destruct (Re.search_literal_i "public limited" raw_text);
    destruct (Re.search_literal_i "one person company" raw_text);
    repeat split; intros; simpl; congruence.
Qed.

Lemma company_type_priority_witness :
  let raw_text := "a Public Limited company, formerly PRIVATE LIMITED" in
  Context.company_type (Extractor.extract_contextual_information raw_text)
  = Some "Private Limited Company".
Proof.
  intros raw_text.
  apply (proj1 (company_type_priority ∅ raw_text)).
  apply search_literal_i_spec. reflexivity.
Defined.

(** X12: [compliance_sections] holds the label of section 139 exactly
    when the text mentions "section 139", the label of section 140
    exactly when it mentions "section 140", nothing else, and section 139
    first when both are there. *)
Theorem compliance_sections_rule (fields : gmap string string)
    (raw_text : string) :
  let l139 := "Section 139 - Appointment of Auditors" in
  let l140 := "Section 140 - Removal of Auditors" in
  let sections :=
    SummaryContext.compliance_sections
      (LlmData.summary_context
         (Extractor.create_llm_ready_summary_data fields raw_text)) in
  (In l139 sections <-> Mentions "section 139" raw_text) /\
  (In l140 sections <-> Mentions "section 140" raw_text) /\
  (sections = [] \/ sections = [l139] \/ sections = [l140] \/
   sections = [l139; l140]).
Proof.
  simpl. rewrite <- !search_literal_i_spec.
  destruct (Re.search_literal_i "section 139" raw_text);
    destruct (Re.search_literal_i "section 140" raw_text); simpl;
    (split; [|split]); try tauto;
    split; try (intros [H|H]; try discriminate H; try destruct H);
    try discriminate; try tauto; intros; try (intuition congruence).
Qed.

(** ** Narrative points *)

Lemma In_point (x : string) (o : option string) :
  In x (Extractor.point o) <-> o = Some x.
Proof.
  destruct o as [y|]; simpl; split; try tauto; try discriminate.
  - intros [->|[]]. reflexivity.
  - intros [= ->]. auto.
Qed.

Lemma length_point (o : option string) : length (Extractor.point o) <= 1.
Proof. destruct o; simpl; lia. Qed.

Lemma narrative_points_length (fields : gmap string string)
    (context : Context.t) (raw_text : string) :
  length (Extractor._extract_narrative_points fields context raw_text) <= 8.
Proof.
  unfold Extractor._extract_narrative_points. rewrite !length_app.
  repeat match goal with
         | |- context [length (Extractor.point ?o)] =>
             pose proof (length_point o);
             generalize dependent (length (Extractor.point o)); intros
         end.
  lia.
Qed.

Lemma appointment_type_known (raw_text : string) :
  exists ty,
    Context.appointment_type
      (Extractor.extract_contextual_information raw_text) = Some ty /\
    truthy ty = true.
Proof.
  simpl.
  destruct (Re.search_literal_i "first appointment" raw_text);
    [|destruct (Re.search_literal_i "reappointment" raw_text);
      [|destruct (Re.search_literal_i "casual vacancy" raw_text)]];
    simpl; eauto.
Qed.

(** X13: the list of narrative points of an assembled document is never
    empty and has at most eight entries: whatever the fields and the
    text, it holds the sentence "This is a ..." with the appointment
    nature in lower case, ['Unknown'] included. *)
Theorem narrative_points_never_empty (fields : gmap string string)
    (raw_text : string) :
  let d := Extractor.create_llm_ready_summary_data fields raw_text in
  let points := LlmData.key_narrative_points d in
  In ("This is a "
      +:+ lower (SummaryContext.appointment_nature
                   (LlmData.summary_context d))) points /\
  1 <= length points <= 8.
Proof.
  intros d points.
  assert (Hin : In ("This is a "
      +:+ lower (SummaryContext.appointment_nature
                   (LlmData.summary_context d))) points).
  { subst points d. unfold Extractor.create_llm_ready_summary_data.
    cbn [Extractor.assemble LlmData.key_narrative_points
         LlmData.summary_context SummaryContext.appointment_nature].
    destruct (appointment_type_known raw_text) as (ty & Hty & Htruthy).
    unfold Extractor._extract_narrative_points.
    rewrite Hty. cbn [default mbind option_bind].
    rewrite Htruthy. rewrite !in_app_iff. right. left. simpl. auto. }
  split; [exact Hin|]. split.
  - destruct points; [destruct Hin|simpl; lia].
  - apply narrative_points_length.
Qed.

Lemma or_iff (A B C D : Prop) : (A <-> B) -> (C <-> D) -> (A \/ C <-> B \/ D).
Proof. tauto. Qed.

Ltac point_case :=
  cbn [mbind option_bind];
  split;
  [ let E := fresh in
    intros E; try discriminate E; injection E as <-; eauto 10
  | intros;
    repeat match goal with
           | H : ex _ |- _ => destruct H
           | H : _ /\ _ |- _ => destruct H
           end;
    subst; congruence ].

(** The points, one by one. *)
Lemma In_narrative_points (x : string) (fields : gmap string string)
    (context : Context.t) (raw_text : string) :
  In x (Extractor._extract_narrative_points fields context raw_text) <->
  (exists name, Extractor.nonempty_field fields "company_name" = Some name /\
     x = "The company " +:+ name +:+ " has appointed an auditor") \/
  (exists ty, Context.appointment_type context = Some ty /\
     truthy ty = true /\ x = "This is a " +:+ lower ty) \/
  (exists firm,
     Extractor.nonempty_field fields "auditor_firm_name" = Some firm /\
     x = "The appointed auditor is " +:+ firm) \/
  (Context.joint_auditors context = Some true /\
   x = "Joint auditors have been appointed") \/
  (exists from to,
     Extractor.nonempty_field fields "audit_period_from" = Some from /\
     Extractor.nonempty_field fields "audit_period_to" = Some to /\
     x = "Audit period is from " +:+ from +:+ " to " +:+ to) \/
  (exists n,
     Extractor.nonempty_field fields "number_of_financial_years" = Some n /\
     x = "Appointment covers " +:+ n +:+ " financial year(s)") \/
  (exists date, Context.agm_conducted context = Some true /\
     Context.agm_date context = Some date /\ truthy date = true /\
     x = "Annual General Meeting was conducted on " +:+ date) \/
  (exists date, Extractor.nonempty_field fields "form_date" = Some date /\
     x = "Form was filed on " +:+ date).
Proof.
  unfold Extractor._extract_narrative_points.
  rewrite !in_app_iff, !In_point.
  repeat apply or_iff.
  - destruct (Extractor.nonempty_field fields "company_name"); point_case.
  - destruct (Context.appointment_type context) as [ty|];
      cbn [mbind option_bind]; [destruct (truthy ty) eqn:?|]; point_case.
  - destruct (Extractor.nonempty_field fields "auditor_firm_name");
      point_case.
  - destruct (Context.joint_auditors context) as [[|]|]; point_case.
  - destruct (Extractor.nonempty_field fields "audit_period_from");
      destruct (Extractor.nonempty_field fields "audit_period_to");
      point_case.
  - destruct (Extractor.nonempty_field fields "number_of_financial_years");
      point_case.
  - destruct (Context.agm_conducted context) as [[|]|];
      destruct (Context.agm_date context) as [date|];
      cbn [mbind option_bind]; try destruct (truthy date) eqn:?; point_case.
  - destruct (Extractor.nonempty_field fields "form_date"); point_case.
Qed.

Lemma DateToken_nonempty (d : string) : DateToken d -> truthy d = true.
Proof.
  intros (d1 & s1 & d2 & s2 & y & -> & _ & Hl & _).
  destruct d1 as [|c d1]; [simpl in Hl; lia|reflexivity].
Qed.

(** X14: the sentence about joint auditors and the flag
    [joint_appointment] agree: the sentence is among the narrative points
    exactly when the flag is true, which is exactly when the text
    mentions "joint auditor". *)
Theorem joint_auditors_consistent (fields : gmap string string)
    (raw_text : string) :
  let d := Extractor.create_llm_ready_summary_data fields raw_text in
  (In "Joint auditors have been appointed" (LlmData.key_narrative_points d)
   <-> AuditorInformation.joint_appointment (LlmData.auditor_information d)
       = true) /\
  (AuditorInformation.joint_appointment (LlmData.auditor_information d) = true
   <-> Mentions "joint auditor" raw_text).
Proof.
  intros d. subst d. unfold Extractor.create_llm_ready_summary_data.
  cbn [Extractor.assemble LlmData.key_narrative_points
       LlmData.auditor_information AuditorInformation.joint_appointment].
  split.
  - rewrite In_narrative_points.
    cbn [Extractor.extract_contextual_information Context.joint_auditors
         default]. split.
    + intros [(? & _ & H)|[(? & _ & _ & H)|[(? & _ & H)|[[H _]|
        [(? & ? & _ & _ & H)|[(? & _ & H)|[(? & _ & _ & _ & H)|(? & _ & H)]
        ]]]]]]; simpl in H; try discriminate H.
      injection H as ->. reflexivity.
    + intros H. right. right. right. left.
      split; [f_equal; exact H|reflexivity].
  - cbn [Extractor.extract_contextual_information Context.joint_auditors
         default]. apply search_literal_i_spec.
Qed.

(** X15: the sentence about the annual general meeting follows the
    text, not the fields: when [agm_conducted] is true the narrative
    points hold the sentence with a date token found in the text after
    the phrase, whatever the field [agm_date] holds; when it is false no
    point is such a sentence. *)
Theorem agm_sentence_from_text (fields : gmap string string)
    (raw_text : string) :
  let d := Extractor.create_llm_ready_summary_data fields raw_text in
  let sentence date := "Annual General Meeting was conducted on " +:+ date in
  (AppointmentDetails.agm_conducted (LlmData.appointment_details d) = true ->
   exists date, AgmOccurs same_line raw_text date /\
                In (sentence date) (LlmData.key_narrative_points d)) /\
  (AppointmentDetails.agm_conducted (LlmData.appointment_details d) = false ->
   forall date, ~ In (sentence date) (LlmData.key_narrative_points d)).
Proof.
  intros d sentence. subst d sentence.
  unfold Extractor.create_llm_ready_summary_data.
  cbn [Extractor.assemble LlmData.key_narrative_points
       LlmData.appointment_details AppointmentDetails.agm_conducted].
  cbn [Extractor.extract_contextual_information Context.agm_conducted
       default].
  destruct (Re.search_agm raw_text) as [date|] eqn:E; split; try discriminate.
  - intros _. pose proof (search_agm_sound _ _ E) as Hocc.
    exists date. split; [exact Hocc|]. apply In_narrative_points.
    do 6 right. left. exists date.
    cbn [Extractor.extract_contextual_information Context.agm_conducted
         Context.agm_date].
    rewrite E. repeat split.
    destruct Hocc as (_ & _ & _ & _ & _ & _ & _ & Hd).
    apply DateToken_nonempty. exact Hd.
  - intros _ date Hin. apply In_narrative_points in Hin.
    cbn [Extractor.extract_contextual_information Context.agm_conducted
         Context.agm_date] in Hin. rewrite E in Hin.
    destruct Hin as [(? & _ & H)|[(? & _ & _ & H)|[(? & _ & H)|[[_ H]|
      [(? & ? & _ & _ & H)|[(? & _ & H)|[(? & Hc & _)|(? & _ & H)]]]]]]];
      try (simpl in H; discriminate H).
    discriminate Hc.
Qed.

Lemma agm_sentence_from_text_witness :
  let fields : gmap string string := dict_of_items [("agm_date", "none")] in
  let raw_text := "Annual general meeting held on 3/4/2024" in
  exists date,
    AgmOccurs same_line raw_text date /\
    In ("Annual General Meeting was conducted on " +:+ date)
       (LlmData.key_narrative_points
          (Extractor.create_llm_ready_summary_data fields raw_text)).
Proof.
  intros fields raw_text.
  exact (proj1 (agm_sentence_from_text fields raw_text) eq_refl).
Defined.

(** ** Addresses and attachments *)

Lemma join_cons_truthy (sep x : string) (l : list string) :
  truthy x = true -> truthy (join sep (x :: l)) = true.
Proof. destruct x; [discriminate|]. destruct l; reflexivity. Qed.

Lemma present_parts_head (components : list (option string)) :
  match present_parts components with
  | [] => True
  | x :: _ => truthy x = true
  end.
Proof.
  induction components as [|[v|] l IH]; simpl; [exact I| |exact IH].
  destruct (truthy v) eqn:E; [exact E|exact IH].
Qed.

Lemma build_address_eq (fields : gmap string string) (prefix : string) :
  let parts := present_parts (address_components fields prefix) in
  Extractor._build_address fields prefix =
  match parts with
  | [] => "Not specified"
  | _ => join ", " parts
  end.
Proof.
  intros parts. subst parts.
  unfold Extractor._build_address, address_components, present_parts,
    Extractor.nonempty_field.
  cbn [omap list_omap].
  change ("_address_line" +:+ "1") with "_address_line1".
  change ("_address_line" +:+ "2") with "_address_line2".
  change ("_address_line" +:+ "3") with "_address_line3".
  destruct (fields !! (prefix +:+ "_address_line1")) as [a|];
    [destruct (truthy a)|];
    (destruct (fields !! (prefix +:+ "_address_line2")) as [b|];
       [destruct (truthy b)|]);
    (destruct (fields !! (prefix +:+ "_address_line3")) as [c|];
       [destruct (truthy c)|]);
    (destruct (fields !! (prefix +:+ "_city")) as [x|];
       cbn [default from_option id]; [destruct (truthy x) eqn:?|]);
    (destruct (fields !! (prefix +:+ "_state")) as [y|];
       cbn [default from_option id]; [destruct (truthy y) eqn:?|]);
    (destruct (fields !! (prefix +:+ "_pincode")) as [z|];
       cbn [default from_option id]; [destruct (truthy z) eqn:?|]);
    reflexivity.
Qed.

(** X16: an address is the components that are present and not empty
    (line 1, line 2, line 3, city, state, pincode, in this order) joined
    by a comma and a space, or the sentinel when there is none; it is
    never the empty string. *)
Theorem build_address_parts (fields : gmap string string) (prefix : string) :
  let parts := present_parts (address_components fields prefix) in
  Extractor._build_address fields prefix
  = match parts with [] => "Not specified" | _ => join ", " parts end /\
  Extractor._build_address fields prefix <> "".
Proof.
  intros parts. split; [apply build_address_eq|].
  pose proof (build_address_eq fields prefix) as E. cbv zeta in E.
  fold parts in E. rewrite E. clear E.
  pose proof (present_parts_head (address_components fields prefix)) as H.
  fold parts in H. destruct parts as [|x l]; [discriminate|].
  apply truthy_true. apply join_cons_truthy. exact H.
Qed.

Lemma split_char_not_nil (c : ascii) (s : string) : split_char c s <> [].
Proof.
  induction s as [|a s IH]; simpl; [discriminate|].
  destruct (Ascii.eqb a c); [discriminate|].
  destruct (split_char c s); discriminate.
Qed.

Lemma split_char_app (c : ascii) (a b : string) :
  split_char c (a +:+ String c b) = split_char c a ++ split_char c b.
Proof.
  induction a as [|x a IH]; simpl.
  - rewrite Ascii.eqb_refl. reflexivity.
  - destruct (Ascii.eqb x c); [rewrite IH; reflexivity|].
    rewrite IH. pose proof (split_char_not_nil c a) as H.
    destruct (split_char c a); [congruence|reflexivity].
Qed.

Lemma parse_attachments_eq (s : string) :
  Extractor._parse_attachments s =
  omap (fun att => if truthy (strip att) then Some (strip att) else None)
       (split_char "," s).
Proof. destruct s; reflexivity. Qed.

(** X17: parsing attachments goes piece by piece: the list parsed from
    two strings joined by a comma is the list of the first followed by
    the list of the second, empty strings included. *)
Theorem parse_attachments_comma (a b : string) :
  Extractor._parse_attachments (a +:+ "," +:+ b)
  = Extractor._parse_attachments a ++ Extractor._parse_attachments b.
Proof.
  rewrite !parse_attachments_eq.
  change ("," +:+ b) with (String ","%char b).
  rewrite split_char_app. apply omap_app.
Qed.

Lemma has_char_lstrip (c : ascii) (s : string) :
  has_char c (lstrip s) = true -> has_char c s = true.
Proof.
  induction s as [|a s IH]; simpl; [auto|].
  destruct (isspace a); simpl; [|auto].
  intros H. rewrite (IH H). apply orb_true_r.
Qed.

Lemma has_char_rstrip (c : ascii) (s : string) :
  has_char c (rstrip s) = true -> has_char c s = true.
Proof.
  induction s as [|a s IH]; simpl; [auto|].
  destruct (rstrip s) as [|d r].
  - destruct (isspace a); simpl; [discriminate|].
    rewrite orb_false_r. intros ->. reflexivity.
  - simpl in *. intros H. apply orb_prop in H. destruct H as [->|H];
      [reflexivity|]. rewrite (IH H). apply orb_true_r.
Qed.

Lemma split_char_no_sep (c : ascii) (s : string) :
  Forall (fun w => has_char c w = false) (split_char c s).
Proof.
  induction s as [|a s IH]; simpl.
  - constructor; [reflexivity|constructor].
  - destruct (Ascii.eqb a c) eqn:E.
    + constructor; [reflexivity|exact IH].
    + destruct (split_char c s) as [|w ws].
      * constructor; [simpl; rewrite E; reflexivity|constructor].
      * inversion IH; subst. constructor; [|assumption].
        simpl. rewrite E. assumption.
Qed.

(** X18: every entry of a parsed attachment list is non-empty, has no
    whitespace at either end, and holds no comma. *)
Theorem parse_attachments_entries (attachments_str att : string) :
  In att (Extractor._parse_attachments attachments_str) ->
  att <> "" /\ strip att = att /\ has_char ","%char att = false.
Proof.
  rewrite parse_attachments_eq, <- list_elem_of_In, list_elem_of_omap.
  intros (piece & Hin & H).
  destruct (truthy (strip piece)) eqn:E; [|discriminate].
  injection H as <-. split; [apply truthy_true; exact E|].
  split; [apply strip_idempotent|].
  pose proof (split_char_no_sep ","%char attachments_str) as Hall.
  rewrite Forall_forall in Hall. specialize (Hall piece Hin).
  destruct (has_char ","%char (strip piece)) eqn:Hc; [|reflexivity].
  apply has_char_rstrip, has_char_lstrip in Hc. congruence.
Qed.

Lemma parse_attachments_entries_witness :
  "resolution.pdf" <> "" /\ strip "resolution.pdf" = "resolution.pdf" /\
  has_char ","%char "resolution.pdf" = false.
Proof.
  apply (parse_attachments_entries " consent.pdf , resolution.pdf ,").
  right. left. reflexivity.
Defined.

(** ** The digital-signature indicator, in general *)

(** X19: on any field set, [digital_signature] is ["Present"] exactly
    when some field name mentions [sign] (case ignored), as part of a
    longer word too, and ["Not verified"] otherwise; the values of the
    fields play no part. *)
Theorem digital_signature_rule (fields : gmap string string)
    (context : Context.t) (raw_text : string) :
  let signature :=
    ComplianceInformation.digital_signature
      (LlmData.compliance_information
         (Extractor.assemble fields context raw_text)) in
  (signature = "Present" <->
   exists k, is_Some (fields !! k) /\ Mentions "sign" k) /\
  (signature = "Not verified" <->
   forall k, is_Some (fields !! k) -> ~ Mentions "sign" k).
Proof.
  cbn [Extractor.assemble LlmData.compliance_information
       ComplianceInformation.digital_signature].
  destruct (existsb _ _) eqn:E.
  - apply existsb_exists in E. destruct E as (k & Hin & Hk).
    apply dict_keys_In in Hin.
    apply (contains_lower_Mentions "sign" k eq_refl) in Hk.
    split; split; try discriminate; eauto.
    intros H. destruct (H k Hin Hk).
  - assert (Hno : forall k, is_Some (fields !! k) -> ~ Mentions "sign" k).
    { intros k Hin Hk.
      apply (contains_lower_Mentions "sign" k eq_refl) in Hk.
      assert (existsb (fun k => contains "sign" (lower k)) (dict_keys fields)
              = true); [|congruence].
      apply existsb_exists. exists k. split; [|exact Hk].
      apply dict_keys_In. exact Hin. }
    split; split; try discriminate; auto.
    intros (k & Hin & Hk). destruct (Hno k Hin Hk).
Qed.

(** ** The text sample *)

Lemma substring_0_split (n : nat) (s : string) :
  n <= String.length s ->
  exists rest,
    s = String.substring 0 n s +:+ rest /\
    String.length (String.substring 0 n s) = n.
Proof.
  revert s. induction n as [|n IH]; intros s H.
  - exists s. destruct s; auto.
  - destruct s as [|c s]; simpl in H; [lia|].
    destruct (IH s ltac:(lia)) as (rest & Hs & Hl).
    exists rest. simpl. rewrite Hl. split; congruence.
Qed.

(** X20: the text sample is the text itself when the text has at most
    1000 characters; otherwise it is the first 1000 characters of the
    text followed by three dots, 1003 characters in all. *)
Theorem raw_text_sample_bounds (raw_text : string) :
  (String.length raw_text <= 1000 ->
   Extractor.raw_text_sample raw_text = raw_text) /\
  (1000 < String.length raw_text ->
   exists first rest,
     raw_text = first +:+ rest /\ String.length first = 1000 /\
     Extractor.raw_text_sample raw_text = first +:+ "..." /\
     String.length (Extractor.raw_text_sample raw_text) = 1003).
Proof.
  unfold Extractor.raw_text_sample. split; intros H.
  - destruct (Nat.ltb_spec 1000 (String.length raw_text)); [lia|reflexivity].
  - destruct (Nat.ltb_spec 1000 (String.length raw_text)); [|lia].
    destruct (substring_0_split 1000 raw_text ltac:(lia)) as (rest & Hs & Hl).
    exists (String.substring 0 1000 raw_text), rest.
    repeat split; try assumption.
    rewrite app_length, Hl. reflexivity.
Qed.

Lemma raw_text_sample_bounds_witness :
  Extractor.raw_text_sample "Form ADT-1" = "Form ADT-1".
Proof.
  apply (proj1 (raw_text_sample_bounds "Form ADT-1")). simpl. lia.
Defined.

(** ** No blank text in the document *)

Lemma split_ws_aux_Some (w s : string) : split_ws_aux (Some w) s <> [].
Proof.
  revert w. induction s as [|c s IH]; intros w; simpl; [discriminate|].
  destruct (isspace c); [discriminate|apply IH].
Qed.

Lemma split_ws_nonblank (s : string) :
  all_space s = false -> split_ws s <> [].
Proof.
  unfold split_ws. induction s as [|c s IH]; simpl; [discriminate|].
  destruct (isspace c); simpl; [exact IH|].
  intros _. apply split_ws_aux_Some.
Qed.

Lemma pipeline_value_nonblank (self : Extractor.t)
    (form_fields : list (string * option string)) (k v : string) :
  Extractor.consolidate_duplicate_fields
    (Extractor.clean_and_map_form_fields self form_fields) !! k = Some v ->
  all_space v = false.
Proof.
  intros H. apply consolidate_entry_origin in H.
  assert (G : forall k', Extractor.clean_and_map_form_fields self form_fields
                !! k' = Some v -> all_space v = false).
  { intros k' Hk'. destruct (clean_and_map_value _ _ _ _ Hk') as [Hne Hs].
    destruct (all_space v) eqn:E; [|reflexivity].
    apply strip_empty in E. congruence. }
  destruct H as [[_ H]|H]; eauto.
Qed.

Lemma all_space_app_false (a b : string) :
  all_space a = false -> all_space (a +:+ b) = false.
Proof.
  induction a as [|c a IH]; simpl; [discriminate|].
  destruct (isspace c); simpl; [exact IH|reflexivity].
Qed.

Lemma join_head_nonblank (sep x : string) (l : list string) :
  all_space x = false -> all_space (join sep (x :: l)) = false.
Proof.
  intros H. destruct l as [|y l]; [exact H|].
  cbn [join]. apply all_space_app_false. exact H.
Qed.

Lemma isdigit_not_space (c : ascii) : isdigit c = true -> isspace c = false.
Proof.
  destruct c as [[|] [|] [|] [|] [|] [|] [|] [|]]; vm_compute; congruence.
Qed.

Lemma DateToken_nonblank (d : string) : DateToken d -> all_space d = false.
Proof.
  intros (d1 & s1 & d2 & s2 & y & -> & Hd & Hl & _).
  destruct d1 as [|c d1]; [simpl in Hl; lia|]. simpl in *.
  apply andb_prop in Hd. destruct Hd as [Hc _].
  rewrite (isdigit_not_space c Hc). reflexivity.
Qed.

Lemma present_parts_In (components : list (option string)) (x : string) :
  In x (present_parts components) -> In (Some x) components.
Proof.
  induction components as [|[v|] l IH]; simpl; [tauto| |auto].
  destruct (truthy v); simpl; [|auto].
  intros [->|H]; auto.
Qed.

Lemma build_address_nonblank (fields : gmap string string) (prefix : string) :
  (forall k v, fields !! k = Some v -> all_space v = false) ->
  all_space (Extractor._build_address fields prefix) = false.
Proof.
  intros F. pose proof (build_address_eq fields prefix) as E.
  cbv zeta in E. rewrite E. clear E.
  destruct (present_parts (address_components fields prefix)) as [|x l] eqn:E;
    [reflexivity|].
  apply join_head_nonblank.
  assert (Hin : In (Some x) (address_components fields prefix))
    by (apply present_parts_In; rewrite E; left; reflexivity).
  unfold address_components in Hin. cbn [In] in Hin.
  repeat (destruct Hin as [Hin|Hin]; [exact (F _ _ Hin)|]).
  destruct Hin.
Qed.

Lemma parse_attachments_nonblank (s a : string) :
  In a (Extractor._parse_attachments s) -> all_space a = false.
Proof.
  rewrite parse_attachments_eq, <- list_elem_of_In, list_elem_of_omap.
  intros (att & _ & H).
  destruct (truthy (strip att)) eqn:E; [|discriminate].
  injection H as <-.
  destruct (all_space (strip att)) eqn:Es; [|reflexivity].
  apply strip_empty in Es. rewrite strip_idempotent in Es.
  rewrite Es in E. discriminate.
Qed.

(** X21: no text of the document the pipeline assembles is blank.  The
    appointment nature, every string of the four information sections
    and every attachment has a character that is not whitespace: each is
    a value of the consolidated fields, which are never blank, or a
    sentinel, a label inferred from the text, a date token of the text,
    or an address built from such values.  So the filing date, of which a
    reader takes the first whitespace-separated token, always has one. *)
Theorem pipeline_texts_not_blank (self : Extractor.t)
    (form_fields : list (string * option string)) (raw_text : string) :
  let d := Extractor.extract_structured_data self form_fields raw_text in
  (forall v, In v (information_texts d) -> all_space v = false) /\
  (exists tok toks,
     split_ws (ComplianceInformation.form_filing_date
                 (LlmData.compliance_information d)) = tok :: toks).
Proof.
  intros d.
  assert (M : forall v, In v (information_texts d) -> all_space v = false).
  { subst d. unfold Extractor.extract_structured_data,
      Extractor.create_llm_ready_summary_data.
    set (fields := Extractor.consolidate_duplicate_fields _).
    assert (F : forall k v, fields !! k = Some v -> all_space v = false)
      by (intros k v; apply pipeline_value_nonblank).
    clearbody fields.
    assert (G : forall k dflt, all_space dflt = false ->
                  all_space (default dflt (fields !! k)) = false).
    { intros k dflt Hd. destruct (fields !! k) as [v|] eqn:E; simpl; eauto. }
    apply List.Forall_forall. unfold information_texts.
    cbn [Extractor.assemble LlmData.summary_context
         LlmData.company_information LlmData.auditor_information
         LlmData.appointment_details LlmData.compliance_information
         SummaryContext.appointment_nature
         CompanyInformation.name CompanyInformation.cin
         CompanyInformation.type CompanyInformation.email
         CompanyInformation.address CompanyInformation.state
         CompanyInformation.pincode
         AuditorInformation.firm_name AuditorInformation.pan
         AuditorInformation.membership_number AuditorInformation.email
         AuditorInformation.address AuditorInformation.qualification
         AuditorInformation.number_of_auditors
         AppointmentDetails.appointment_date
         AppointmentDetails.audit_period_start
         AppointmentDetails.audit_period_end
         AppointmentDetails.financial_years_count
         AppointmentDetails.agm_date AppointmentDetails.resolution_number
         AppointmentDetails.director_din
         ComplianceInformation.form_filing_date
         ComplianceInformation.receipt_date
         ComplianceInformation.certificate_serial
         ComplianceInformation.digital_signature
         ComplianceInformation.attachments app
         Extractor.extract_contextual_information Context.appointment_type
         Context.company_type Context.auditor_qualification
         Context.agm_date].
    repeat apply List.Forall_cons;
      try (apply G; reflexivity);
      try (apply build_address_nonblank; exact F).
    - cbn [Extractor.first_rule Extractor.appointment_type_rules].
      destruct (Re.search_literal_i "first appointment" raw_text);
        [reflexivity|].
      destruct (Re.search_literal_i "reappointment" raw_text); [reflexivity|].
      destruct (Re.search_literal_i "casual vacancy" raw_text); reflexivity.
    - cbn [Extractor.first_rule Extractor.company_type_rules].
      destruct (Re.search_literal_i "private limited" raw_text);
        [reflexivity|].
      destruct (Re.search_literal_i "public limited" raw_text); [reflexivity|].
      destruct (Re.search_literal_i "one person company" raw_text);
        reflexivity.
    - destruct (Re.search_literal_i "chartered accountant" raw_text);
        reflexivity.
    - apply G. destruct (Re.search_agm raw_text) as [date|] eqn:E;
        [|reflexivity].
      apply search_agm_sound in E.
      destruct E as (_ & _ & _ & _ & _ & _ & _ & Hd).
      apply DateToken_nonblank. exact Hd.
    - apply G. apply G. reflexivity.
    - destruct (existsb _ _); reflexivity.
    - apply List.Forall_forall. intros a. apply parse_attachments_nonblank. }
  split; [exact M|].
  assert (H : split_ws (ComplianceInformation.form_filing_date
                          (LlmData.compliance_information d)) <> []).
  { apply split_ws_nonblank. apply M. unfold information_texts.
    apply in_or_app. left. cbn [In]. do 22 right. left. reflexivity. }
  destruct (split_ws _) as [|tok toks]; [congruence|eauto].
Qed.

Lemma pipeline_texts_not_blank_witness :
  split_ws
    (ComplianceInformation.form_filing_date
       (LlmData.compliance_information
          (Extractor.extract_structured_data (Extractor.__init__ "form.pdf")
             [("current_date", Some "   "); ("CurrDate[0]", Some "2023-01-02")]
             "")))
  <> [].
Proof.
  destruct (proj2 (pipeline_texts_not_blank (Extractor.__init__ "form.pdf")
                     [("current_date", Some "   ");
                      ("CurrDate[0]", Some "2023-01-02")]
                     ""))
    as (tok & toks & H).
  rewrite H. discriminate.
Defined.

(** ** Which exception the formatter raises *)

(** X23: the exception follows the first step that fails.  A document
    that is not an object gives [TypeError], one without the key
    [structured_data] gives [KeyError].  With the twelve keys there: a
    filing date that is not a string gives [AttributeError]; then, the
    date having a token, an appointment nature that is not a string
    gives [AttributeError]; then [compliance_sections] gives [IndexError]
    when it is an empty list or an empty string, [KeyError] when it is an
    object, and [TypeError] when it is [null], a boolean or a number. *)
Theorem generate_summary_exception_kinds :
  (forall data, (forall items, data <> Py.VDict items) ->
     Summary.generate_summary data = Py.Raise Py.TypeError) /\
  (forall items, Py.lookup_item "structured_data" items = None ->
     Summary.generate_summary (Py.VDict items) = Py.Raise Py.KeyError) /\
  (forall data r, reads data r ->
     ((forall s, form_filing_date r <> Py.VStr s) ->
      Summary.generate_summary data = Py.Raise Py.AttributeError) /\
     (forall date tok toks,
        form_filing_date r = Py.VStr date -> split_ws date = tok :: toks ->
        ((forall s, nature r <> Py.VStr s) ->
         Summary.generate_summary data = Py.Raise Py.AttributeError) /\
        (forall n, nature r = Py.VStr n ->
           (compliance_sections r = Py.VList [] \/
            compliance_sections r = Py.VStr "" ->
            Summary.generate_summary data = Py.Raise Py.IndexError) /\
           ((exists items, compliance_sections r = Py.VDict items) ->
            Summary.generate_summary data = Py.Raise Py.KeyError) /\
           (compliance_sections r = Py.VNone \/
            (exists b, compliance_sections r = Py.VBool b) \/
            (exists z, compliance_sections r = Py.VInt z) ->
            Summary.generate_summary data = Py.Raise Py.TypeError)))).
Proof.
  split; [|split].
  - intros data H. destruct data; try reflexivity. destruct (H items eq_refl).
  - intros items H. unfold Summary.generate_summary. simpl. rewrite H.
    reflexivity.
  - intros data r Hr. rewrite (generate_summary_reads data r Hr).
    unfold render, render_with. split.
    + intros H. destruct (form_filing_date r) as [| | |s| |]; try reflexivity.
      destruct (H s eq_refl).
    + intros date tok toks -> Hsplit. simpl. rewrite Hsplit. simpl. split.
      * intros H. destruct (nature r) as [| | |s| |]; try reflexivity.
        destruct (H s eq_refl).
      * intros n ->. simpl. split; [|split].
        -- intros [-> | ->]; reflexivity.
        -- intros [items ->]. reflexivity.
        -- intros [-> |[[b ->]|[z ->]]]; reflexivity.
Qed.

Lemma generate_summary_exception_kinds_witness :
  Summary.generate_summary (Py.VList [Py.VStr "structured_data"])
  = Py.Raise Py.TypeError.
Proof.
  apply (proj1 generate_summary_exception_kinds). discriminate.
Defined.

(** ** Instances of the equivalences above *)

Lemma compliance_sections_rule_witness :
  In "Section 140 - Removal of Auditors"
     (SummaryContext.compliance_sections
        (LlmData.summary_context
           (Extractor.create_llm_ready_summary_data ∅
              "removal under SECTION 140 of the Act"))).
Proof.
  apply (proj1 (proj2 (compliance_sections_rule ∅
                         "removal under SECTION 140 of the Act"))).
  apply search_literal_i_spec. reflexivity.
Defined.

Lemma joint_auditors_consistent_witness :
  In "Joint auditors have been appointed"
     (LlmData.key_narrative_points
        (Extractor.create_llm_ready_summary_data ∅
           "appointed as Joint Auditors of the company")).
Proof.
  apply (proj1 (joint_auditors_consistent ∅
                  "appointed as Joint Auditors of the company")).
  reflexivity.
Defined.

Lemma digital_signature_rule_witness :
  ComplianceInformation.digital_signature
    (LlmData.compliance_information
       (Extractor.assemble (dict_of_items [("design_note", "draft")])
          empty_context ""))
  = "Present".
Proof.
  apply (proj1 (digital_signature_rule _ empty_context "")).
  exists "design_note". split.
  - vm_compute. eauto.
  - apply (contains_lower_Mentions "sign" "design_note" eq_refl). reflexivity.
Defined.
